(** * SentinelDownloader: the record store and the session controller

    A shallow embedding of [sentineldownloader/ssat_database.py] and
    [sentineldownloader/ssat_downloader.py].

    - A pandas [DataFrame] is an ordered list of rows; the row label (the
      frame's index, the product id of the remote service) may repeat, which
      is why the source calls [index.duplicated()].
    - A [pathlib.Path] is its list of components, and a name joined onto a
      folder is one component; the filesystem is a finite map from paths to
      nodes, on which writing always succeeds.
    - The remote service (sentinelsat) is a record of the three functions
      that the source calls; the operations of the session take it as a
      parameter.
    - Of the worker pool the model keeps the submitted download job and what
      the two futures report; waiting for the pool lets the download worker
      and then the monitor run to their end.
    - A ledger file holds the frame that was written to it; the types that
      pandas infers when it reads the file again are not modelled.
    - Logging and printing are left out. *)

From stdpp Require Import gmap strings list sorting.
From Stdlib Require Import Ascii ZArith Lia.

Open Scope string_scope.
Open Scope list_scope.

(** ** Rows and frames *)

(** One product.  [index] is the row label; [title] and [identifier] are the
    two columns from which file names are built; [beginposition] is the
    sensing start in nanoseconds, [None] standing for NaT; [meta] stands for
    the columns that are passed through unread. *)
Record Row := mkRow {
  index : string;
  title : string;
  identifier : string;
  beginposition : option Z;
  date : string;
  tile : string;
  online : bool;
  downloaded : bool;
  qlook : bool;
  meta : list string
}.

Abbreviation DataFrame := (list Row) (only parsing).

Definition set_date (v : string) (r : Row) : Row :=
  mkRow (index r) (title r) (identifier r) (beginposition r) v (tile r)
        (online r) (downloaded r) (qlook r) (meta r).

Definition set_tile (v : string) (r : Row) : Row :=
  mkRow (index r) (title r) (identifier r) (beginposition r) (date r) v
        (online r) (downloaded r) (qlook r) (meta r).

Definition set_online (v : bool) (r : Row) : Row :=
  mkRow (index r) (title r) (identifier r) (beginposition r) (date r) (tile r)
        v (downloaded r) (qlook r) (meta r).

Definition set_downloaded (v : bool) (r : Row) : Row :=
  mkRow (index r) (title r) (identifier r) (beginposition r) (date r) (tile r)
        (online r) v (qlook r) (meta r).

Definition set_qlook (v : bool) (r : Row) : Row :=
  mkRow (index r) (title r) (identifier r) (beginposition r) (date r) (tile r)
        (online r) (downloaded r) v (meta r).

(** [df.index] *)
Definition labels (d : DataFrame) : list string := map index d.

(** [idx.isin(values)] *)
Definition isin (idx values : list string) : list bool :=
  map (fun i => bool_decide (i ∈ values)) idx.

(** [idx.duplicated()], keep='first': a label is flagged when it has been
    seen at an earlier position. *)
Fixpoint duplicated_from (seen idx : list string) : list bool :=
  match idx with
  | [] => []
  | i :: rest => bool_decide (i ∈ seen) :: duplicated_from (i :: seen) rest
  end.

Definition duplicated (idx : list string) : list bool := duplicated_from [] idx.

(** [~mask] *)
Definition inv (mask : list bool) : list bool := map negb mask.

(** [df[mask]]: the rows at the positions where the mask is true. *)
Fixpoint select {A : Type} (d : list A) (mask : list bool) : list A :=
  match d, mask with
  | r :: d', b :: mask' => if b then r :: select d' mask' else select d' mask'
  | _, _ => []
  end.

(** [df[~df.index.duplicated()]] *)
Definition drop_duplicated (d : DataFrame) : DataFrame :=
  select d (inv (duplicated (labels d))).

(** [pd.concat([a, b])] *)
Definition concat (a b : DataFrame) : DataFrame := a ++ b.

(** ** Paths *)

Abbreviation Path := (list string) (only parsing).

(** [folder / name], for a name that is a single path component. *)
Definition join (p : Path) (name : string) : Path := p ++ [name].

Infix "//" := join (at level 40, left associativity).

(** [name.rfind('.')] *)
Fixpoint rfind_dot (s : string) : option nat :=
  match s with
  | EmptyString => None
  | String c s' =>
      match rfind_dot s' with
      | Some i => Some (S i)
      | None => if bool_decide (c = "."%char) then Some 0 else None
      end
  end.

(** [PurePath.suffix] of a final component: the text from the last dot on,
    unless that dot is the first or the last character. *)
Definition suffix (name : string) : string :=
  match rfind_dot name with
  | Some i =>
      if ((0 <? i) && (i <? String.length name - 1))%nat
      then String.substring i (String.length name - i) name
      else ""
  | None => ""
  end.

(** [PurePath.with_suffix] on the final component: an existing suffix is
    replaced, otherwise the new one is appended. *)
Definition name_with_suffix (name sfx : string) : string :=
  let old := suffix name in
  if bool_decide (old = "") then name +:+ sfx
  else String.substring 0 (String.length name - String.length old) name +:+ sfx.

Definition with_suffix (p : Path) (sfx : string) : Path :=
  match reverse p with
  | [] => p
  | name :: parents => reverse parents ++ [name_with_suffix name sfx]
  end.

(** ** The filesystem *)

(** A node is a directory, a ledger file holding a table (what [to_csv]
    wrote and [read_csv] gives back), or any other file. *)
Inductive Node :=
| Dir
| Csv (rows : DataFrame)
| Blob.

Abbreviation FS := (gmap (list string) Node) (only parsing).

(** [Path.exists] *)
Definition exists_ (w : FS) (p : Path) : bool := bool_decide (is_Some (w !! p)).

(** The proper prefixes of a path and the path itself, without the root. *)
Fixpoint ancestors (p : Path) : list Path :=
  match p with
  | [] => []
  | c :: p' => [c] :: map (cons c) (ancestors p')
  end.

(** [Path.mkdir(parents=True)]: every missing directory on the way is made. *)
Definition mkdir (w : FS) (p : Path) : FS :=
  foldr (fun q acc => if exists_ acc q then acc else <[q := Dir]> acc) w
        (reverse (ancestors p)).

(** [df.to_csv(path)] *)
Definition to_csv (d : DataFrame) (p : Path) (w : FS) : FS := <[p := Csv d]> w.

(** [pd.read_csv(path, index_col='Unnamed: 0')]: the rows of the table that
    the file holds.  The file keeps the frame that was written to it; how
    pandas infers the column types again on reading is not modelled.  pandas
    raises on a path that holds no table; such a path reads as the empty
    table here. *)
Definition read_csv (w : FS) (p : Path) : DataFrame :=
  match w !! p with
  | Some (Csv d) => d
  | _ => []
  end.

(** ** SSatDatabase *)

Module SSatDatabase.

Definition db_csv_name := "download_db.csv".
Definition qlooks_dir := "qlooks".
Definition images_dir := "images".

(** The attributes [folder] and [df] of the class.  Both are [None] after
    [__init__] and after a failed [create] or [open], and both are set
    after a successful one, so the pair is one optional record. *)
Record Store := mkStore { folder : Path; df : DataFrame }.

Abbreviation t := (option Store) (only parsing).

Definition initialized (db : t) : bool :=
  match db with Some _ => true | None => false end.

Definition download_db_path (st : Store) : Path := folder st // db_csv_name.
Definition images_folder (st : Store) : Path := folder st // images_dir.
Definition qlooks_folder (st : Store) : Path := folder st // qlooks_dir.

(** [__len__] *)
Definition len (db : t) : nat :=
  match db with Some st => length (df st) | None => 0 end.

Definition save_db (db : t) (w : FS) : FS :=
  match db with
  | Some st => to_csv (df st) (download_db_path st) w
  | None => w
  end.

(** [create] returns its boolean, the new store and the new filesystem. *)
Definition create (db : t) (w : FS) (base_dir : Path) : bool * t * FS :=
  if exists_ w base_dir then (false, None, w)
  else
    let w1 := mkdir w base_dir in
    let w2 := mkdir w1 (base_dir // qlooks_dir) in
    let w3 := mkdir w2 (base_dir // images_dir) in
    let db' := Some (mkStore base_dir []) in
    (true, db', save_db db' w3).

Definition check_image (w : FS) (p : Path) : bool :=
  let zip_file := exists_ w (with_suffix p ".zip") in
  let safe := exists_ w (with_suffix p ".SAFE") in
  zip_file || safe.

Definition images_targets (st : Store) : list Path :=
  map (fun r => images_folder st // identifier r) (df st).

Definition quick_looks_targets (st : Store) : list Path :=
  map (fun r => qlooks_folder st // (identifier r +:+ ".jpeg")) (df st).

(** [df[col] = values], the values in the row order of [df]. *)
Fixpoint assign {A : Type} (set : A -> Row -> Row) (d : DataFrame)
         (values : list A) : DataFrame :=
  match d, values with
  | r :: d', v :: values' => set v r :: assign set d' values'
  | _, _ => d
  end.

Definition update (db : t) (w : FS) : t * FS :=
  match db with
  | Some st =>
      if (0 <? length (df st))%nat then
        let d1 := assign set_downloaded (df st)
                         (map (check_image w) (images_targets st)) in
        let st1 := mkStore (folder st) d1 in
        let d2 := assign set_qlook d1
                         (map (exists_ w) (quick_looks_targets st1)) in
        let d3 := drop_duplicated d2 in
        let db' := Some (mkStore (folder st) d3) in
        (db', save_db db' w)
      else (db, w)
  | None => (db, w)
  end.

Definition open (db : t) (w : FS) (base_dir : Path) : bool * t * FS :=
  let images := base_dir // images_dir in
  let qlooks := base_dir // qlooks_dir in
  let csv := base_dir // db_csv_name in
  if exists_ w csv && exists_ w images && exists_ w qlooks then
    let db1 := Some (mkStore base_dir (read_csv w csv)) in
    let '(db2, w2) := update db1 w in
    (true, db2, w2)
  else (false, None, w).

Definition add_data (db : t) (d : DataFrame) (w : FS) : t * FS :=
  match db with
  | None => (db, w)
  | Some st =>
      let to_add := select d (inv (isin (labels d) (labels (df st)))) in
      let db' := Some (mkStore (folder st) (concat (df st) to_add)) in
      (db', save_db db' w)
  end.

(** The [to_download] property of the store. *)
Definition to_download (db : t) : option DataFrame :=
  match db with
  | None => None
  | Some st => Some (select (df st) (inv (map downloaded (df st))))
  end.

End SSatDatabase.

Import SSatDatabase.

(** ** Notions used to state the properties of the store *)

(** [drop_duplicated] started with some labels already seen. *)
Definition dedup_from (seen : list string) (d : DataFrame) : DataFrame :=
  select d (inv (duplicated_from seen (labels d))).

(** What [update] writes into one row of a store kept under [fold]. *)
Definition reconciled (w : FS) (fold : Path) (r : Row) : Row :=
  set_qlook (exists_ w (fold // qlooks_dir // (identifier r +:+ ".jpeg")))
    (set_downloaded (check_image w (fold // images_dir // identifier r)) r).

(** The ledger that [update] leaves behind. *)
Definition reconciled_ledger (w : FS) (st : Store) : DataFrame :=
  drop_duplicated (map (reconciled w (folder st)) (df st)).

(** How many rows of a frame carry a given label. *)
Definition occurrences (i : string) (d : DataFrame) : nat :=
  length (filter (λ r, index r = i) d).

(** The in-memory ledger of a store, empty when there is none. *)
Definition ledger (db : SSatDatabase.t) : DataFrame :=
  match db with Some st => df st | None => [] end.

(** Two merges in a row, as [add_data] called twice. *)
Definition add_data_twice (db : SSatDatabase.t) (r1 r2 : DataFrame) (w : FS)
  : SSatDatabase.t * FS :=
  let '(db1, w1) := add_data db r1 w in add_data db1 r2 w1.

(** A product with the given label, title and identifier and nothing else. *)
Definition product (i t ident : string) : Row :=
  mkRow i t ident None "" "" false false false [].

(** An initialized store with an empty ledger, as [create] leaves it. *)
Definition fresh_store (base_dir : Path) : SSatDatabase.t :=
  Some (mkStore base_dir []).

(** The ledger file holds exactly the in-memory ledger. *)
Definition persisted_agrees (db : SSatDatabase.t) (w : FS) : Prop :=
  match db with
  | Some st => w !! download_db_path st = Some (Csv (df st))
  | None => True
  end.

(** * SSatDownloader *)

(** ** The remote service and the worker pool *)

(** The keyword arguments of a query. *)
Abbreviation QueryArgs := (list (string * string)) (only parsing).

(** What sentinelsat's [download_all] returns: the products downloaded,
    triggered and failed. *)
Record Status := mkStatus {
  got : list string;
  triggered : list string;
  failed : list string
}.

(** The three capabilities of sentinelsat that the source calls:
    [to_dataframe(query(kwargs))], [is_online(id)] and
    [download_all(ids, directory_path, max_attempts)], whose effect is on
    the filesystem. *)
Record SentinelService := mkService {
  api_query : QueryArgs → DataFrame;
  api_is_online : string → bool;
  api_download_all : list string → Path → nat → FS → Status * FS
}.

(** The two attributes of the connection object that the source sets. *)
Record SentinelAPI := mkAPI {
  logger_disabled : bool;
  show_progressbars : bool
}.

(** A [concurrent.futures.Future], as far as the source looks at it. *)
Record Future := mkFuture { running : bool }.

(** A [ThreadPoolExecutor] with the download job submitted to it. *)
Record Executor := mkExecutor {
  max_workers : nat;
  job_ids : list string;
  job_directory : Path;
  job_max_attempts : nat
}.

(** How a call ends: with [return], or with the [AttributeError] of an
    attribute access on [None]. *)
Inductive Exit := Return | Raise.

(** The exceptions that [query], [update] and [download_status] can end
    with: an attribute read on [None], a subscript or a keyword expansion of
    [None], and a column that the frame does not have. *)
Inductive Error := AttributeError | TypeError | KeyError.

(** How [query] and [update] end. *)
Inductive Ending := Done | Failed (e : Error).

(** [beginposition] in ascending order, NaT last. *)
Definition position_le (a b : Row) : Prop :=
  match beginposition a, beginposition b with
  | Some x, Some y => (x ≤ y)%Z
  | _, None => True
  | None, Some _ => False
  end.

#[global] Instance position_le_dec a b : Decision (position_le a b).
Proof.
  unfold position_le.
  destruct (beginposition a), (beginposition b); apply _.
Defined.

(** [df.sort_values(by='beginposition')].  pandas does not fix the order of
    rows with equal keys; merge sort is taken here. *)
Definition sort_values (d : DataFrame) : DataFrame := merge_sort position_le d.

(** A pandas [Series]: values under row labels. *)
Abbreviation Series A := (list (string * A)) (only parsing).

(** [series.loc[i]], the first value under the label. *)
Fixpoint series_loc {A : Type} (i : string) (s : Series A) : option A :=
  match s with
  | [] => None
  | (j, v) :: s' => if bool_decide (i = j) then Some v else series_loc i s'
  end.

(** [series.map(f)] *)
Definition series_map {A B : Type} (f : A → B) (s : Series A) : Series B :=
  map (λ '(j, v), (j, f v)) s.

(** [df[col] = series]: each row takes the value found under its own label.
    A label missing from the series would give NaN; the source only assigns
    series that are built over the labels of the frame. *)
Definition assign_aligned {A : Type} (set : A → Row → Row) (d : DataFrame)
           (s : Series A) : DataFrame :=
  map (λ r, match series_loc (index r) s with
            | Some v => set v r
            | None => r
            end) d.

Module SSatDownloader.

Record t := mk {
  api : option SentinelAPI;
  database : SSatDatabase.t;
  _search_df : option DataFrame;
  query_args : option QueryArgs;
  status : option Status;
  executor : option Executor;
  monitor : option Future;
  result : option Future
}.

Definition with_api (v : option SentinelAPI) (s : t) : t :=
  mk v (database s) (_search_df s) (query_args s) (status s) (executor s)
     (monitor s) (result s).

Definition with_database (v : SSatDatabase.t) (s : t) : t :=
  mk (api s) v (_search_df s) (query_args s) (status s) (executor s)
     (monitor s) (result s).

Definition with_search_df (v : option DataFrame) (s : t) : t :=
  mk (api s) (database s) v (query_args s) (status s) (executor s)
     (monitor s) (result s).

Definition with_query_args (v : option QueryArgs) (s : t) : t :=
  mk (api s) (database s) (_search_df s) v (status s) (executor s)
     (monitor s) (result s).

Definition with_status (v : option Status) (s : t) : t :=
  mk (api s) (database s) (_search_df s) (query_args s) v (executor s)
     (monitor s) (result s).

Definition with_executor (v : option Executor) (s : t) : t :=
  mk (api s) (database s) (_search_df s) (query_args s) (status s) v
     (monitor s) (result s).

Definition with_monitor (v : option Future) (s : t) : t :=
  mk (api s) (database s) (_search_df s) (query_args s) (status s)
     (executor s) v (result s).

Definition with_result (v : option Future) (s : t) : t :=
  mk (api s) (database s) (_search_df s) (query_args s) (status s)
     (executor s) (monitor s) v.

(** [self.api.logger.disabled = v] and [self.api.show_progressbars = v],
    on a connection that is there. *)
Definition set_logger_disabled (v : bool) (s : t) : t :=
  with_api (option_map (λ a, mkAPI v (show_progressbars a)) (api s)) s.

Definition set_show_progressbars (v : bool) (s : t) : t :=
  with_api (option_map (λ a, mkAPI (logger_disabled a) v) (api s)) s.

Definition check_search_df (s : t) : bool :=
  match _search_df s with
  | None => false
  | Some d => negb (length d =? 0)%nat
  end.

Definition _check_api (s : t) : bool :=
  match api s with None => false | Some _ => true end.

Definition _is_downloading (s : t) : bool :=
  match result s with
  | Some f => running f
  | None => false
  end.

Definition combined_df (s : t) : option DataFrame :=
  let result := if check_search_df s then _search_df s else None in
  let result :=
    match database s with
    | Some st =>
        match result with
        | None => Some (df st)
        | Some r => Some (concat r (df st))
        end
    | None => result
    end in
  option_map drop_duplicated result.

Definition images_targets (s : t) : option (Series Path) :=
  if negb (check_search_df s) || negb (initialized (database s)) then None
  else
    match combined_df s, database s with
    | Some c, Some st =>
        Some (map (λ r, (index r, images_folder st // (title r +:+ ".zip"))) c)
    | _, _ => None
    end.

Definition quick_looks_targets (s : t) : option (Series Path) :=
  if negb (check_search_df s) || negb (initialized (database s)) then None
  else
    match combined_df s, database s with
    | Some c, Some st =>
        Some (map (λ r, (index r, qlooks_folder st // (title r +:+ ".jpeg"))) c)
    | _, _ => None
    end.

Definition to_download (s : t) : option DataFrame :=
  if negb (initialized (database s)) then None
  else option_map (λ c, select c (inv (map downloaded c))) (combined_df s).

Definition update_local_info (s : t) (w : FS) : t * FS :=
  let '(db, w) := SSatDatabase.update (database s) w in
  let s := with_database db s in
  if negb (check_search_df s) then (s, w)
  else if negb (initialized (database s)) then
    let s := with_search_df
               (option_map (map (set_downloaded false)) (_search_df s)) s in
    let s := with_search_df
               (option_map (map (set_qlook false)) (_search_df s)) s in
    (s, w)
  else
    let s :=
      match images_targets s, _search_df s with
      | Some targets, Some d =>
          with_search_df
            (Some (assign_aligned set_downloaded d
                     (series_map (exists_ w) targets))) s
      | _, _ => s
      end in
    let s :=
      match quick_looks_targets s, _search_df s with
      | Some targets, Some d =>
          with_search_df
            (Some (assign_aligned set_qlook d
                     (series_map (exists_ w) targets))) s
      | _, _ => s
      end in
    (s, w).

(** [df.query(expr)], the expression being a predicate on rows. *)
Definition filter_results (query : option (Row → bool)) (s : t) : t :=
  if negb (check_search_df s) then s
  else
    match query with
    | Some q => with_search_df (option_map (List.filter q) (_search_df s)) s
    | None => s
    end.

(** The second step of [download_all]: the search set, when there is one,
    is added to the store. *)
Definition merge_search_df (s : t) (w : FS) : t * FS :=
  match _search_df s with
  | Some d =>
      let '(db, w) := add_data (database s) d w in
      (with_database db s, w)
  | None => (s, w)
  end.

Section WithService.

Variable svc : SentinelService.

(** When the service finds nothing, [to_dataframe] gives a frame without
    rows and without columns, and [sort_values(by='beginposition')] raises
    [KeyError]: the keyword arguments are recorded by then, the search set is
    still the old one. *)
Definition query (post_filter : option (Row → bool)) (search_online : bool)
           (kwargs : QueryArgs) (s : t) (w : FS) : Ending * t * FS :=
  if negb (_check_api s) || _is_downloading s then (Done, s, w)
  else
    let s := with_query_args (Some kwargs) s in
    match api_query svc kwargs with
    | [] => (Failed KeyError, s, w)
    | products =>
        let s := with_search_df (Some (sort_values products)) s in
        let s := filter_results post_filter s in
        let s := with_search_df
                   (option_map
                      (map (λ r, set_date (String.substring 11 8 (title r)) r))
                      (_search_df s)) s in
        let s := with_search_df
                   (option_map
                      (map (λ r, set_tile (String.substring 39 5 (title r)) r))
                      (_search_df s)) s in
        let s :=
          if search_online then
            with_search_df
              (option_map
                 (map (λ r, set_online (api_is_online svc (index r)) r))
                 (_search_df s)) s
          else
            with_search_df (option_map (map (set_online false)) (_search_df s)) s
        in
        let '(s, w) := update_local_info s w in
        (Done, s, w)
    end.

(** The download worker runs to its end: the submitted job has its
    effect on the filesystem and the future stops reporting running. *)
Definition finish_download (s : t) (w : FS) : t * FS :=
  match executor s, result s with
  | Some ex, Some f =>
      if running f then
        let '(_, w) := api_download_all svc (job_ids ex) (job_directory ex)
                         (job_max_attempts ex) w in
        (with_result (Some (mkFuture false)) s, w)
      else (s, w)
  | _, _ => (s, w)
  end.

(** [_monitor_download] once its loop has seen the download finished. *)
Definition _monitor_download (s : t) (w : FS) : t * FS :=
  let '(s, w) := update_local_info s w in
  let s := set_logger_disabled false s in
  let s := set_show_progressbars true s in
  (s, w).

Definition finish_monitor (s : t) (w : FS) : t * FS :=
  match monitor s with
  | Some f =>
      if running f then
        let '(s, w) := _monitor_download s w in
        (with_monitor (Some (mkFuture false)) s, w)
      else (s, w)
  | None => (s, w)
  end.

(** [executor.shutdown()], which waits: the download worker finishes,
    then the monitor, while the caller is blocked. *)
Definition shutdown (s : t) (w : FS) : t * FS :=
  let '(s, w) := finish_download s w in finish_monitor s w.

Definition download_all (max_attempts : nat) (background : bool)
           (s : t) (w : FS) : Exit * t * FS :=
  if negb (initialized (database s)) then (Return, s, w)
  else
    let '(s, w) := merge_search_df s w in
    match to_download s with
    | None => (Return, s, w)
    | Some pending =>
        if (length pending =? 0)%nat then (Return, s, w)
        else
          match api s with
          | None => (Raise, s, w)
          | Some _ =>
              let s := set_logger_disabled true s in
              if background then
                let s := set_show_progressbars false s in
                let '(s, w) :=
                  match executor s with
                  | Some _ => shutdown s w
                  | None => (s, w)
                  end in
                let ids := labels (default [] (to_download s)) in
                let dir := default [] (option_map images_folder (database s)) in
                let s := with_executor
                           (Some (mkExecutor 2 ids dir max_attempts)) s in
                let s := with_result (Some (mkFuture true)) s in
                let s := with_monitor (Some (mkFuture true)) s in
                (Return, s, w)
              else
                let ids := labels (default [] (to_download s)) in
                let dir := default [] (option_map images_folder (database s)) in
                let '(st, w) := api_download_all svc ids dir max_attempts w in
                let s := with_status (Some st) s in
                let '(s, w) := update_local_info s w in
                let s := set_logger_disabled false s in
                (Return, s, w)
          end
    end.

End WithService.

End SSatDownloader.

(** ** Notions used to state the properties of the session *)

(** The deduplicated union of the specification: the rows of the search set,
    one per label, then the rows of the ledger, one per label, whose label
    the search set does not carry. *)
Definition spec_union (search stored : DataFrame) : DataFrame :=
  drop_duplicated search
  ++ filter (λ r, index r ∉ labels search) (drop_duplicated stored).

(** The to-download set of the specification: that union, restricted to the
    rows whose downloaded flag is false. *)
Definition spec_to_download (search stored : DataFrame) : DataFrame :=
  filter (λ r, downloaded r = false) (spec_union search stored).

(** The first row of a frame under a label. *)
Definition first_row (i : string) (d : DataFrame) : option Row :=
  List.find (λ r, bool_decide (index r = i)) d.

(** What [update_local_info] writes into a row of the search set [d] when
    the store [st] is initialized: the title of the first search row with the
    same label, followed by [.zip] under images and by [.jpeg] under
    qlooks. *)
Definition local_flags (w : FS) (st : Store) (d : DataFrame) (r : Row) : Row :=
  let r0 := default r (first_row (index r) d) in
  set_qlook (exists_ w (qlooks_folder st // (title r0 +:+ ".jpeg")))
    (set_downloaded (exists_ w (images_folder st // (title r0 +:+ ".zip"))) r).

(** A row of the search set as [query] leaves it, against the row that the
    service returned: the columns of the service are untouched and the date
    and the tile are cut out of the title at fixed positions. *)
Definition derived (r0 r : Row) : Prop :=
  index r = index r0 ∧ title r = title r0 ∧ identifier r = identifier r0 ∧
  beginposition r = beginposition r0 ∧ meta r = meta r0 ∧
  date r = String.substring 11 8 (title r0) ∧
  tile r = String.substring 39 5 (title r0).

(** Two rows that differ at most in the flags [downloaded] and [qlook]. *)
Definition same_but_flags (r r' : Row) : Prop :=
  set_qlook false (set_downloaded false r) =
  set_qlook false (set_downloaded false r').

(** A service that finds two products, the later one first, and downloads
    nothing. *)
Definition sample_service : SentinelService :=
  mkService
    (λ _, [mkRow "u2" "B" "B" (Some 7%Z) "" "" false false false [];
           mkRow "u1" "A" "A" (Some 3%Z) "" "" false false false []])
    (λ _, false)
    (λ _ _ _ w, (mkStatus [] [] [], w)).

(** A connected session without store, search set or worker pool. *)
Definition connected : SSatDownloader.t :=
  SSatDownloader.mk (Some (mkAPI false true)) None None None None None None None.

(** The labels of the ledger that a session holds. *)
Definition stored_labels (s : SSatDownloader.t) : list string :=
  labels (ledger (SSatDownloader.database s)).

(** A session with a background download in flight: the store is
    initialized and empty, the search set holds one product that is not
    yet stored, and the future of the download worker reports running. *)
Definition busy_session : SSatDownloader.t :=
  SSatDownloader.mk (Some (mkAPI true false)) (fresh_store ["db1"])
     (Some [product "A" "a" "a"]) None None
     (Some (mkExecutor 2 ["X"] ["db1"; "images"] 10))
     (Some (mkFuture true)) (Some (mkFuture true)).

(** ** The rest of the session controller *)

(** What [download_status] has to say: nothing is being downloaded, so many
    of so many targets are there, or the call fails. *)
Inductive Progress :=
| NoDownload
| Completed (done total : nat)
| Fails (e : Error).

Module Session.

Import SSatDownloader.

Definition open_database (folder : Path) (s : SSatDownloader.t) (w : FS)
  : SSatDownloader.t * FS :=
  let '(_, db, w) := SSatDatabase.open (database s) w folder in
  (with_database db s, w).

Definition create_database (folder : Path) (s : SSatDownloader.t) (w : FS)
  : SSatDownloader.t * FS :=
  let '(_, db, w) := SSatDatabase.create (database s) w folder in
  (with_database db s, w).

Definition clear (s : SSatDownloader.t) : SSatDownloader.t :=
  let s := with_search_df None s in
  let s := with_status None (with_query_args None s) in
  with_result None (with_monitor None (with_executor None s)).

(** [series[labels]]: the values under the given labels, in their order. *)
Definition series_take {A : Type} (s : Series A) (idx : list string)
  : list (option A) :=
  map (λ i, series_loc i s) idx.

(** The [download_status] property: the share of the pending targets that
    exist.  The subscripted object is evaluated before the subscript. *)
Definition download_status (s : SSatDownloader.t) (w : FS) : Progress :=
  if _is_downloading s then
    match SSatDownloader.images_targets s, SSatDownloader.to_download s with
    | _, None => Fails AttributeError
    | None, Some _ => Fails TypeError
    | Some targets, Some pending =>
        let progress :=
          map (λ v, match v with Some p => exists_ w p | None => false end)
              (series_take targets (labels pending)) in
        Completed (length (List.filter id progress)) (length progress)
    end
  else NoDownload.

Section WithService.

Variable svc : SentinelService.

(** [update(local)]: a query made again takes the keyword arguments of the
    last one and the defaults for the rest, so no post-filter. *)
Definition update (local : bool) (s : SSatDownloader.t) (w : FS)
  : Ending * SSatDownloader.t * FS :=
  if negb (check_search_df s) then (Done, s, w)
  else if local then
    let '(s, w) := update_local_info s w in (Done, s, w)
  else if _check_api s && negb (_is_downloading s) then
    match query_args s with
    | Some kwargs => query svc None false kwargs s w
    | None => (Failed TypeError, s, w)
    end
  else (Done, s, w).

End WithService.

End Session.

(** ** Notions used to state further properties *)

(** Any number of merges in a row. *)
Definition add_data_all (db : SSatDatabase.t) (batches : list DataFrame)
           (w : FS) : SSatDatabase.t * FS :=
  fold_left (λ acc d, add_data acc.1 d acc.2) batches (db, w).

(** The two flags of every stored row say what the filesystem holds. *)
Definition flags_current (db : SSatDatabase.t) (w : FS) : Prop :=
  match db with
  | Some st =>
      ∀ r, r ∈ df st →
           downloaded r = check_image w (images_folder st // identifier r) ∧
           qlook r = exists_ w (qlooks_folder st // (identifier r +:+ ".jpeg"))
  | None => True
  end.

(** The search set that [query] hands to [update_local_info]. *)
Definition prepared (svc : SentinelService) (search_online : bool)
           (d : DataFrame) : DataFrame :=
  map (λ r, set_online (if search_online then api_is_online svc (index r)
                         else false)
              (set_tile (String.substring 39 5 (title r))
                 (set_date (String.substring 11 8 (title r)) r))) d.

(** The layout of a store under [db1] with an empty ledger file, as
    [create] leaves it. *)
Definition sample_layout : FS :=
  {[ ["db1"] := Dir; ["db1"; "images"] := Dir; ["db1"; "qlooks"] := Dir;
     ["db1"; "download_db.csv"] := Csv [] ]}.

(** The sample service, answering the online probe with yes for the product
    [u1] only. *)
Definition probing_service : SentinelService :=
  mkService (api_query sample_service) (λ i, bool_decide (i = "u1"))
            (api_download_all sample_service).

(** A service that finds nothing. *)
Definition silent_service : SentinelService :=
  mkService (λ _, []) (λ _, false) (api_download_all sample_service).

(** The store is initialized and kept under the folder, and the ledger file
    there holds the in-memory ledger. *)
Definition written_through (folder : Path) (db : SSatDatabase.t) (w : FS)
  : Prop :=
  ∃ st, db = Some st ∧ SSatDatabase.folder st = folder ∧
        w !! (folder // db_csv_name) = Some (Csv (df st)).

(** * Facts and theorems *)

(** ** Facts about frames *)

Section FrameFacts.

Implicit Types (d a b : DataFrame) (r : Row) (i : string)
         (seen vals : list string).

Lemma labels_cons r d : labels (r :: d) = index r :: labels d.
Proof. reflexivity. Qed.

Lemma labels_app a b : labels (a ++ b) = labels a ++ labels b.
Proof. apply map_app. Qed.

Lemma elem_of_labels i d : i ∈ labels d ↔ ∃ r, r ∈ d ∧ index r = i.
Proof.
  induction d as [|r d IH]; cbn.
  - split; [intros H; inversion H | intros (r & H & _); inversion H].
  - rewrite elem_of_cons, IH. split.
    + intros [->|(r' & Hin & Hi)].
      * exists r. split; [left | reflexivity].
      * exists r'. split; [by right | done].
    + intros (r' & Hin & Hi). apply elem_of_cons in Hin as [->|Hin].
      * by left.
      * right. by exists r'.
Qed.

Lemma labels_filter_elem (P : Row → Prop) `{!∀ r, Decision (P r)} i d :
  i ∈ labels (filter P d) → i ∈ labels d.
Proof.
  rewrite !elem_of_labels. intros (r & Hin & Hi).
  apply list_elem_of_filter in Hin as [_ Hin]. by exists r.
Qed.

(** Selecting with the negation of a membership mask is a filter. *)
Lemma select_inv_isin d vals :
  select d (inv (isin (labels d) vals)) = filter (λ r, index r ∉ vals) d.
Proof.
  induction d as [|r d IH]; [reflexivity|].
  rewrite filter_cons. unfold inv, isin, labels in *. cbn [map select].
  case_bool_decide; cbn [negb].
  - rewrite decide_False by tauto. apply IH.
  - rewrite decide_True by done. by rewrite IH.
Qed.

(** Selecting with the negation of a boolean column is a filter. *)
Lemma select_inv_column (f : Row → bool) d :
  select d (inv (map f d)) = filter (λ r, f r = false) d.
Proof.
  induction d as [|r d IH]; [reflexivity|].
  rewrite filter_cons. unfold inv in *. cbn [map select].
  destruct (f r) eqn:E; cbn [negb].
  - rewrite decide_False by done. apply IH.
  - rewrite decide_True by done. by rewrite IH.
Qed.

Lemma drop_duplicated_dedup d : drop_duplicated d = dedup_from [] d.
Proof. reflexivity. Qed.

Lemma dedup_from_nil seen : dedup_from seen [] = [].
Proof. reflexivity. Qed.

Lemma dedup_from_cons seen r d :
  dedup_from seen (r :: d) =
  if bool_decide (index r ∈ seen) then dedup_from (index r :: seen) d
  else r :: dedup_from (index r :: seen) d.
Proof. unfold dedup_from. cbn. by case_bool_decide. Qed.

Lemma dedup_from_seen_ext seen seen' d :
  (∀ i, i ∈ seen ↔ i ∈ seen') → dedup_from seen d = dedup_from seen' d.
Proof.
  revert seen seen'. induction d as [|r d IH]; intros seen seen' Hext.
  - reflexivity.
  - rewrite !dedup_from_cons.
    assert (dedup_from (index r :: seen) d = dedup_from (index r :: seen') d)
      as ->.
    { apply IH. intros i. rewrite !elem_of_cons, Hext. tauto. }
    rewrite (bool_decide_ext _ _ (Hext (index r))). reflexivity.
Qed.

Lemma elem_of_labels_dedup_from i seen d :
  i ∈ labels (dedup_from seen d) ↔ i ∈ labels d ∧ i ∉ seen.
Proof.
  revert seen. induction d as [|r d IH]; intros seen.
  - cbn. split; [intros H; inversion H | intros [H _]; inversion H].
  - rewrite dedup_from_cons. case_bool_decide as Hs.
    + rewrite IH, labels_cons, !elem_of_cons. split.
      * intros [Hd Hn]. split; [by right | tauto].
      * intros [[->|Hd] Hn]; [done|]. split; [done|].
        intros [->|?]; tauto.
    + rewrite !labels_cons, !elem_of_cons, IH, elem_of_cons. split.
      * intros [->|[Hd Hn]]; [split; [by left | done]|].
        split; [by right | tauto].
      * intros [[->|Hd] Hn]; [by left|].
        destruct (decide (i = index r)) as [->|Hne]; [by left|].
        right. split; [done|]. tauto.
Qed.

Lemma NoDup_labels_dedup_from seen d : NoDup (labels (dedup_from seen d)).
Proof.
  revert seen. induction d as [|r d IH]; intros seen.
  - constructor.
  - rewrite dedup_from_cons. case_bool_decide; [apply IH|].
    rewrite labels_cons. apply NoDup_cons. split; [|apply IH].
    rewrite elem_of_labels_dedup_from, elem_of_cons. tauto.
Qed.

Lemma dedup_from_id seen d :
  NoDup (labels d) → (∀ i, i ∈ labels d → i ∉ seen) → dedup_from seen d = d.
Proof.
  revert seen. induction d as [|r d IH]; intros seen Hnd Hdis; [reflexivity|].
  rewrite labels_cons in Hnd, Hdis. apply NoDup_cons in Hnd as [Hr Hnd].
  rewrite dedup_from_cons, bool_decide_eq_false_2.
  - f_equal. apply IH; [done|]. intros i Hi [->|Hs]%elem_of_cons; [done|].
    apply (Hdis i); [by right | done].
  - apply Hdis. by left.
Qed.

Lemma dedup_from_app seen a b :
  dedup_from seen (a ++ b) =
  dedup_from seen a ++ dedup_from (reverse (labels a) ++ seen) b.
Proof.
  revert seen. induction a as [|r a IH]; intros seen; [reflexivity|].
  cbn [app]. rewrite !dedup_from_cons, IH.
  assert (dedup_from (reverse (labels a) ++ index r :: seen) b =
          dedup_from (reverse (labels (r :: a)) ++ seen) b) as ->.
  { apply dedup_from_seen_ext. intros i.
    rewrite labels_cons, reverse_cons, !elem_of_app, !elem_of_cons,
      elem_of_nil. tauto. }
  by case_bool_decide.
Qed.

Lemma dedup_from_filter_base seen base d :
  dedup_from (seen ++ base) d =
  filter (λ r, index r ∉ seen) (dedup_from base d).
Proof.
  revert base. induction d as [|r d IH]; intros base; [reflexivity|].
  rewrite !dedup_from_cons.
  assert (dedup_from (index r :: seen ++ base) d =
          filter (λ r, index r ∉ seen) (dedup_from (index r :: base) d))
    as ->.
  { rewrite <- IH. apply dedup_from_seen_ext. intros i.
    rewrite !elem_of_cons, !elem_of_app, elem_of_cons. tauto. }
  destruct (decide (index r ∈ base)) as [Hb|Hb].
  - rewrite !bool_decide_eq_true_2; [done|done|].
    apply elem_of_app. by right.
  - rewrite (bool_decide_eq_false_2 (index r ∈ base)) by done.
    rewrite filter_cons. destruct (decide (index r ∈ seen)) as [Hs|Hs].
    + rewrite bool_decide_eq_true_2 by (apply elem_of_app; by left).
      rewrite decide_False by tauto. reflexivity.
    + rewrite bool_decide_eq_false_2
        by (rewrite elem_of_app; tauto).
      rewrite decide_True by done. reflexivity.
Qed.

Lemma dedup_from_filter seen d :
  dedup_from seen d = filter (λ r, index r ∉ seen) (drop_duplicated d).
Proof.
  rewrite drop_duplicated_dedup, <- dedup_from_filter_base.
  by rewrite app_nil_r.
Qed.

(** Concatenating and then dropping duplicates keeps the rows of the first
    frame and only those rows of the second whose label is new. *)
Lemma drop_duplicated_concat a b :
  drop_duplicated (concat a b) =
  drop_duplicated a ++ filter (λ r, index r ∉ labels a) (drop_duplicated b).
Proof.
  unfold concat. rewrite drop_duplicated_dedup, dedup_from_app.
  rewrite <- dedup_from_filter. f_equal.
  apply dedup_from_seen_ext. intros i.
  rewrite elem_of_app, elem_of_reverse, elem_of_nil. tauto.
Qed.

Lemma NoDup_labels_drop_duplicated d : NoDup (labels (drop_duplicated d)).
Proof. apply NoDup_labels_dedup_from. Qed.

Lemma elem_of_labels_drop_duplicated i d :
  i ∈ labels (drop_duplicated d) ↔ i ∈ labels d.
Proof.
  rewrite drop_duplicated_dedup, elem_of_labels_dedup_from, elem_of_nil.
  tauto.
Qed.

Lemma drop_duplicated_id d : NoDup (labels d) → drop_duplicated d = d.
Proof.
  intros H. apply dedup_from_id; [done|]. intros i _. apply not_elem_of_nil.
Qed.

Lemma drop_duplicated_idem d :
  drop_duplicated (drop_duplicated d) = drop_duplicated d.
Proof. apply drop_duplicated_id, NoDup_labels_drop_duplicated. Qed.

Lemma dedup_from_sub seen d r : r ∈ dedup_from seen d → r ∈ d.
Proof.
  revert seen. induction d as [|r' d IH]; intros seen.
  - by rewrite dedup_from_nil.
  - rewrite dedup_from_cons. case_bool_decide.
    + intros H'. right. by eapply IH.
    + intros [->|H']%elem_of_cons; [left | right; by eapply IH].
Qed.

Lemma drop_duplicated_sub d r : r ∈ drop_duplicated d → r ∈ d.
Proof. apply dedup_from_sub. Qed.

Lemma drop_duplicated_nonempty d : d ≠ [] → drop_duplicated d ≠ [].
Proof.
  destruct d as [|r d]; [done|]. intros _.
  rewrite drop_duplicated_dedup, dedup_from_cons.
  by rewrite bool_decide_eq_false_2 by apply not_elem_of_nil.
Qed.

End FrameFacts.

(** ** Facts about paths and the filesystem *)

Section PathFacts.

Implicit Types (p q : list string) (w : gmap (list string) Node).

Lemma with_suffix_join p name sfx :
  with_suffix (p // name) sfx = p // name_with_suffix name sfx.
Proof.
  unfold with_suffix, join. by rewrite reverse_snoc, reverse_involutive.
Qed.

Lemma name_with_suffix_plain name sfx :
  suffix name = "" → name_with_suffix name sfx = name +:+ sfx.
Proof.
  intros H. unfold name_with_suffix. by rewrite H, bool_decide_eq_true_2.
Qed.

Lemma join_inj p name name' : p // name = p // name' → name = name'.
Proof. unfold join. intros H. apply app_inv_head in H. congruence. Qed.

Lemma join2_ne_join1 p a b c : p // a // b ≠ p // c.
Proof.
  unfold join. rewrite <- app_assoc. intros H.
  apply app_inv_head in H. discriminate.
Qed.

Lemma exists_to_csv_ne d p q w :
  p ≠ q → exists_ (to_csv d p w) q = exists_ w q.
Proof.
  intros H. unfold exists_, to_csv. by rewrite lookup_insert_ne.
Qed.

Lemma exists_to_csv_eq d p w : exists_ (to_csv d p w) p = true.
Proof.
  unfold exists_, to_csv. rewrite lookup_insert_eq.
  apply bool_decide_eq_true_2. by eexists.
Qed.

Lemma to_csv_twice d d' p w : to_csv d p (to_csv d' p w) = to_csv d p w.
Proof. unfold to_csv. apply insert_insert_eq. Qed.

Lemma read_to_csv d p w : read_csv (to_csv d p w) p = d.
Proof. unfold read_csv, to_csv. by rewrite lookup_insert_eq. Qed.

End PathFacts.

(** ** Facts about the record store *)

Section StoreFacts.

Implicit Types (d : list Row) (r : Row) (st : Store)
         (w : gmap (list string) Node) (db : option Store).

Lemma assign_map {A} (set : A → Row → Row) (f : Row → A) d :
  assign set d (map f d) = map (λ r, set (f r) r) d.
Proof. induction d as [|r d IH]; cbn; [done | by rewrite IH]. Qed.

Lemma labels_map_keep (f : Row → Row) d :
  (∀ r, index (f r) = index r) → labels (map f d) = labels d.
Proof.
  intros H. unfold labels. rewrite map_map. apply map_ext. intros r. apply H.
Qed.

Lemma length_pos_nonempty d : (0 <? length d)%nat = true ↔ d ≠ [].
Proof. destruct d; cbn; split; done. Qed.

Lemma update_nonempty st w :
  df st ≠ [] →
  update (Some st) w =
  (Some (mkStore (folder st) (reconciled_ledger w st)),
   to_csv (reconciled_ledger w st) (folder st // db_csv_name) w).
Proof.
  intros Hne. unfold update.
  rewrite (proj2 (length_pos_nonempty _) Hne).
  unfold images_targets, quick_looks_targets, save_db, download_db_path.
  unfold qlooks_folder, images_folder. cbn [folder df].
  rewrite !map_map, !assign_map, !map_map. reflexivity.
Qed.

Lemma update_empty st w : df st = [] → update (Some st) w = (Some st, w).
Proof. intros H. unfold update. by rewrite H. Qed.

Lemma update_uninitialized w : update None w = (None, w).
Proof. reflexivity. Qed.

Lemma reconciled_index w fold r : index (reconciled w fold r) = index r.
Proof. reflexivity. Qed.

Lemma reconciled_twice w fold r :
  reconciled w fold (reconciled w fold r) = reconciled w fold r.
Proof. reflexivity. Qed.

(** Writing the ledger file changes no answer that [update] asks of the
    filesystem: its targets lie one level below the ledger file. *)
Lemma reconciled_to_csv d w fold r :
  reconciled (to_csv d (fold // db_csv_name) w) fold r = reconciled w fold r.
Proof.
  unfold reconciled, check_image.
  rewrite !with_suffix_join.
  by rewrite !exists_to_csv_ne by (apply not_eq_sym, join2_ne_join1).
Qed.

Lemma reconciled_ledger_fixed d w st :
  reconciled_ledger (to_csv d (folder st // db_csv_name) w)
    (mkStore (folder st) (reconciled_ledger w st)) = reconciled_ledger w st.
Proof.
  unfold reconciled_ledger at 1. cbn [folder df].
  assert (map (reconciled (to_csv d (folder st // db_csv_name) w) (folder st))
            (reconciled_ledger w st) = reconciled_ledger w st) as ->.
  { rewrite <- (map_id (reconciled_ledger w st)) at 2.
    apply map_ext_in. intros r Hin%list_elem_of_In.
    apply drop_duplicated_sub, list_elem_of_In, in_map_iff in Hin
      as (r0 & <- & _).
    by rewrite reconciled_to_csv, reconciled_twice. }
  apply drop_duplicated_idem.
Qed.

End StoreFacts.

(** ** Merging row sets into the store *)

Section MergeFacts.

Implicit Types (d a b : list Row) (r : Row) (i : string)
         (vals : list string) (st : Store) (w : gmap (list string) Node).

Lemma add_data_initialized st d w :
  add_data (Some st) d w =
  let d' := df st ++ filter (λ r, index r ∉ labels (df st)) d in
  (Some (mkStore (folder st) d'), to_csv d' (folder st // db_csv_name) w).
Proof. unfold add_data. by rewrite select_inv_isin. Qed.


Lemma elem_of_labels_filter_new vals d i :
  i ∈ labels (filter (λ r, index r ∉ vals) d) ↔ i ∈ labels d ∧ i ∉ vals.
Proof.
  rewrite !elem_of_labels. split.
  - intros (r & [Hn Hin]%list_elem_of_filter & <-). split; [by exists r|done].
  - intros [(r & Hin & <-) Hn]. exists r. split; [|done].
    by apply list_elem_of_filter.
Qed.

Lemma NoDup_labels_filter (P : Row → Prop) `{!∀ r, Decision (P r)} d :
  NoDup (labels d) → NoDup (labels (filter P d)).
Proof.
  induction d as [|r d IH]; [done|].
  rewrite labels_cons, NoDup_cons, filter_cons. intros [Hr Hd].
  destruct (decide (P r)); [|by apply IH].
  rewrite labels_cons. apply NoDup_cons. split; [|by apply IH].
  intros Hin. by apply Hr, (labels_filter_elem P).
Qed.

Lemma occurrences_app i a b :
  occurrences i (a ++ b) = occurrences i a + occurrences i b.
Proof. unfold occurrences. by rewrite filter_app, length_app. Qed.

Lemma occurrences_cons i r d :
  occurrences i (r :: d) =
  (if decide (index r = i) then 1 else 0) + occurrences i d.
Proof. unfold occurrences. rewrite filter_cons. by case_decide. Qed.



Lemma occurrences_filter_new i vals d :
  occurrences i (filter (λ r, index r ∉ vals) d) =
  if decide (i ∈ vals) then 0 else occurrences i d.
Proof.
  induction d as [|r d IH]; [by case_decide|].
  rewrite filter_cons. destruct (decide (index r ∉ vals)) as [Hr|Hr].
  - rewrite !occurrences_cons, IH.
    repeat case_decide; subst; (done || lia).
  - rewrite IH, occurrences_cons.
    repeat case_decide; subst; (done || lia).
Qed.

End MergeFacts.

(** ** The record store: theorems *)

(** The scenario of the specification: merging [A, B] and then [B, C] into
    a fresh store leaves exactly [A, B, C]. *)
Example merge_scenario :
  labels (ledger (add_data_twice (fresh_store ["db1"])
                    [product "A" "a" "a"; product "B" "b" "b"]
                    [product "B" "b" "b"; product "C" "c" "c"] ∅).1)
  = ["A"; "B"; "C"].
Proof. by vm_compute. Qed.




(** C3: reconciling twice in a row gives the same ledger, in memory and on
    disk, as reconciling once; the ledger file that the first pass writes is
    not among the paths that the second pass looks for. *)
Theorem update_idempotent (db : SSatDatabase.t) (w : FS) :
  update (update db w).1 (update db w).2 = update db w.
Proof.
  destruct db as [st|]; [|reflexivity].
  destruct (decide (df st = [])) as [He|Hne].
  - rewrite update_empty by done. cbn [fst snd]. by apply update_empty.
  - rewrite update_nonempty by done. cbn [fst snd].
    rewrite update_nonempty
      by (cbn [df]; apply drop_duplicated_nonempty; by destruct (df st)).
    cbn [folder]. by rewrite reconciled_ledger_fixed, to_csv_twice.
Qed.

(** After [update] on a non-empty ledger, each row carries what the two
    checks of the source answer for its [identifier]. *)
Lemma update_flags (st : Store) (w : FS) (r : Row) :
  df st ≠ [] →
  r ∈ ledger (update (Some st) w).1 →
  downloaded r = check_image w (folder st // images_dir // identifier r) ∧
  qlook r = exists_ w (folder st // qlooks_dir // (identifier r +:+ ".jpeg")).
Proof.
  intros Hne. rewrite update_nonempty by done. cbn [fst ledger df].
  intros Hin%drop_duplicated_sub%list_elem_of_In%in_map_iff.
  destruct Hin as (r0 & <- & _). done.
Qed.

(** For an identifier without a dot suffix, [check_image] looks for the
    identifier followed by [.zip] or by [.SAFE]. *)
Lemma check_image_plain (w : FS) (p : Path) (name : string) :
  suffix name = "" →
  check_image w (p // name) =
  exists_ w (p // (name +:+ ".zip")) || exists_ w (p // (name +:+ ".SAFE")).
Proof.
  intros H. unfold check_image.
  by rewrite !with_suffix_join, !name_with_suffix_plain.
Qed.

(** C5, at an identifier that contains a dot: [with_suffix] replaces what
    follows the last dot instead of appending.  With [images/S2A.v1.zip] on
    disk, the row whose identifier is [S2A.v1] is left not downloaded, and
    with only [images/S2A.zip] on disk it is marked downloaded. *)
Theorem update_suffixed_identifier :
  let st := mkStore ["db"] [product "u1" "S2A.v1" "S2A.v1"] in
  let w1 : FS := {[ ["db"; "images"; "S2A.v1.zip"] := Blob ]} in
  let w2 : FS := {[ ["db"; "images"; "S2A.zip"] := Blob ]} in
  (exists_ w1 (images_folder st // ("S2A.v1" +:+ ".zip")) = true ∧
   map downloaded (ledger (update (Some st) w1).1) = [false]) ∧
  (exists_ w2 (images_folder st // ("S2A.v1" +:+ ".zip")) = false ∧
   exists_ w2 (images_folder st // ("S2A.v1" +:+ ".SAFE")) = false ∧
   map downloaded (ledger (update (Some st) w2).1) = [true]).
Proof. by vm_compute. Qed.

(** C7: [create] on a path that exists returns [False], gives the
    filesystem back as it was, with no directory or ledger file made, and
    leaves the store uninitialized. *)
Theorem create_existing_path (db : SSatDatabase.t) (w : FS) (base_dir : Path) :
  exists_ w base_dir = true →
  create db w base_dir = (false, None, w).
Proof. intros H. unfold create. by rewrite H. Qed.

Lemma create_existing_path_witness :
  create None {[ ["db1"] := Dir ]} ["db1"] = (false, None, {[ ["db1"] := Dir ]}).
Proof. apply create_existing_path. by vm_compute. Defined.

Lemma update_initialized (db : SSatDatabase.t) (w : FS) :
  initialized (update db w).1 = initialized db.
Proof.
  destruct db as [st|]; [|reflexivity]. unfold update.
  by destruct (0 <? length (df st))%nat.
Qed.

(** C8: when the ledger file, the images directory or the qlooks directory
    is missing, [open] returns [False], touches nothing and leaves the store
    uninitialized; when all three are present it returns [True] with the
    store initialized. *)
Theorem open_invalid_layout (db : SSatDatabase.t) (w : FS) (base_dir : Path) :
  let present := exists_ w (base_dir // db_csv_name)
                 && exists_ w (base_dir // images_dir)
                 && exists_ w (base_dir // qlooks_dir) in
  (present = false → open db w base_dir = (false, None, w)) ∧
  (present = true →
   (open db w base_dir).1.1 = true ∧
   initialized (open db w base_dir).1.2 = true).
Proof.
  cbv zeta. unfold open. split; intros ->; [reflexivity|].
  pose proof (update_initialized
                (Some (mkStore base_dir (read_csv w (base_dir // db_csv_name))))
                w) as Hi.
  destruct (update _ w) as [db2 w2]. by split.
Qed.

Lemma open_invalid_layout_witness :
  let w : FS := {[ ["db1"] := Dir; ["db1"; "images"] := Dir;
                   ["db1"; "download_db.csv"] := Csv [] ]} in
  open None w ["db1"] = (false, None, w).
Proof.
  intros w. apply (proj1 (open_invalid_layout None w ["db1"])).
  by vm_compute.
Defined.

(** C9: a merge into an initialized store, a reconcile of a non-empty
    ledger and a create on a path that does not exist each end with the
    store initialized under its folder and the ledger file holding exactly
    the in-memory ledger; a reconcile of an empty ledger changes nothing. *)
Theorem write_through (st : Store) (d : DataFrame) (db : SSatDatabase.t)
        (w : FS) (base_dir : Path) :
  written_through (folder st) (add_data (Some st) d w).1
                  (add_data (Some st) d w).2 ∧
  (df st ≠ [] →
   written_through (folder st) (update (Some st) w).1 (update (Some st) w).2) ∧
  (df st = [] → update (Some st) w = (Some st, w)) ∧
  (exists_ w base_dir = false →
   (create db w base_dir).1.1 = true ∧
   ledger (create db w base_dir).1.2 = [] ∧
   written_through base_dir (create db w base_dir).1.2 (create db w base_dir).2).
Proof.
  unfold written_through. split; [|split; [|split]].
  - rewrite add_data_initialized. cbn. eexists. split; [reflexivity|].
    split; [reflexivity|]. unfold to_csv. apply lookup_insert_eq.
  - intros Hne. rewrite update_nonempty by done. cbn. eexists.
    split; [reflexivity|]. split; [reflexivity|].
    unfold to_csv. apply lookup_insert_eq.
  - apply update_empty.
  - intros Hnew. unfold create. rewrite Hnew. cbn. split; [done|].
    split; [done|]. eexists. split; [reflexivity|]. split; [reflexivity|].
    unfold to_csv, download_db_path. cbn. apply lookup_insert_eq.
Qed.

Lemma write_through_witness :
  let st := mkStore ["db1"] [product "A" "a" "a"] in
  let d := [product "B" "b" "b"] in
  written_through ["db1"] (add_data (Some st) d sample_layout).1
                  (add_data (Some st) d sample_layout).2 ∧
  written_through ["db1"] (update (Some st) sample_layout).1
                  (update (Some st) sample_layout).2 ∧
  written_through ["db2"] (create None sample_layout ["db2"]).1.2
                  (create None sample_layout ["db2"]).2.
Proof.
  intros st d.
  destruct (write_through st d None sample_layout ["db2"])
    as (Hadd & Hupd & _ & Hcreate).
  split; [exact Hadd|]. split; [by apply Hupd|].
  by apply Hcreate.
Defined.

(** ** The session controller: the combined view and the to-download set *)

Import SSatDownloader.

Section CombinedFacts.

Implicit Types (s : SSatDownloader.t) (st : Store) (d : list Row).

Lemma check_search_df_true s :
  check_search_df s = true ↔ ∃ d, _search_df s = Some d ∧ d ≠ [].
Proof.
  unfold check_search_df. destruct (_search_df s) as [d|].
  - destruct d; cbn; split; try done.
    + intros (d' & [= <-] & H). done.
    + intros _. by eexists.
  - split; [done | by intros (d & ? & _)].
Qed.

Lemma combined_df_initialized s st :
  database s = Some st →
  combined_df s =
  Some (drop_duplicated (concat (default [] (_search_df s)) (df st))).
Proof.
  intros Hdb. unfold combined_df, check_search_df. rewrite Hdb.
  destruct (_search_df s) as [[|r d]|]; reflexivity.
Qed.

Lemma combined_df_spec s st :
  database s = Some st →
  combined_df s = Some (spec_union (default [] (_search_df s)) (df st)).
Proof.
  intros Hdb. rewrite (combined_df_initialized s st Hdb).
  by rewrite drop_duplicated_concat.
Qed.

End CombinedFacts.

(** C4: with the store initialized, [to_download] is the deduplicated union
    of the search set and the ledger, restricted to the rows that are not
    downloaded; an absent search set counts as empty.  The union carries each
    label once, and a row of it whose label occurs in the search set is a row
    of the search set. *)
Theorem to_download_spec (s : SSatDownloader.t) (st : Store) :
  database s = Some st →
  to_download s = Some (spec_to_download (default [] (_search_df s)) (df st))
  ∧ NoDup (labels (spec_union (default [] (_search_df s)) (df st)))
  ∧ ∀ r, r ∈ spec_union (default [] (_search_df s)) (df st) →
         index r ∈ labels (default [] (_search_df s)) →
         r ∈ default [] (_search_df s).
Proof.
  intros Hdb. split; [|split].
  - unfold to_download. rewrite Hdb. cbn [initialized negb].
    rewrite (combined_df_spec s st Hdb). cbn [option_map].
    by rewrite select_inv_column.
  - unfold spec_union. rewrite <- drop_duplicated_concat.
    apply NoDup_labels_drop_duplicated.
  - intros r Hin Hi. unfold spec_union in Hin.
    apply elem_of_app in Hin as [Hin|Hin].
    + by apply drop_duplicated_sub.
    + by apply list_elem_of_filter in Hin as [Hn _].
Qed.

Lemma to_download_spec_witness :
  let search := [set_downloaded true (product "B" "b-new" "b"); product "C" "c" "c"] in
  let stored := [product "A" "a" "a"; product "B" "b-old" "b"] in
  let s := mk None (Some (mkStore ["db1"] stored)) (Some search) None None
              None None None in
  to_download s = Some [product "C" "c" "c"; product "A" "a" "a"].
Proof.
  intros search stored s.
  rewrite (proj1 (to_download_spec s (mkStore ["db1"] stored) eq_refl)).
  by vm_compute.
Defined.

(** ** The session controller: local information on the search set *)

Section LocalInfoFacts.

Implicit Types (s : SSatDownloader.t) (st : Store) (d c : list Row)
         (r : Row) (i : string) (seen : list string)
         (w : gmap (list string) Node).

Lemma first_row_cons i r d :
  first_row i (r :: d) = if decide (index r = i) then Some r else first_row i d.
Proof. unfold first_row. cbn. by case_bool_decide; case_decide. Qed.

Lemma first_row_app i d c :
  first_row i (d ++ c) =
  match first_row i d with Some r => Some r | None => first_row i c end.
Proof.
  induction d as [|r d IH]; [done|]. cbn [app].
  rewrite !first_row_cons. by case_decide.
Qed.

Lemma first_row_elem r d : r ∈ d → is_Some (first_row (index r) d).
Proof.
  induction d as [|r' d IH]; [by intros ?%elem_of_nil|].
  rewrite first_row_cons. case_decide; [by eexists|].
  intros [->|Hin]%elem_of_cons; [done | by apply IH].
Qed.

Lemma first_row_label i d : i ∈ labels d → is_Some (first_row i d).
Proof. intros (r & Hin & <-)%elem_of_labels. by apply first_row_elem. Qed.

Lemma first_row_map (h : Row → Row) i d :
  (∀ r, index (h r) = index r) →
  first_row i (map h d) = option_map h (first_row i d).
Proof.
  intros Hh. induction d as [|r d IH]; [done|]. cbn [map].
  rewrite !first_row_cons, Hh. by case_decide.
Qed.

Lemma first_row_dedup_from i seen d :
  first_row i (dedup_from seen d) =
  if decide (i ∈ seen) then None else first_row i d.
Proof.
  revert seen. induction d as [|r d IH]; intros seen.
  - rewrite dedup_from_nil. by case_decide.
  - rewrite dedup_from_cons. case_bool_decide as Hs.
    + rewrite IH, first_row_cons.
      destruct (decide (index r = i)) as [<-|Hne].
      * rewrite decide_True by (by left). by rewrite decide_True.
      * destruct (decide (i ∈ seen)).
        -- rewrite decide_True by (by right). done.
        -- rewrite decide_False; [done|].
           intros [->|?]%elem_of_cons; done.
    + rewrite !first_row_cons, IH.
      destruct (decide (index r = i)) as [<-|Hne].
      * by rewrite decide_False.
      * destruct (decide (i ∈ seen)).
        -- rewrite decide_True by (by right). done.
        -- rewrite decide_False; [done|].
           intros [->|?]%elem_of_cons; done.
Qed.

Lemma first_row_drop_duplicated i d :
  first_row i (drop_duplicated d) = first_row i d.
Proof.
  rewrite drop_duplicated_dedup, first_row_dedup_from.
  rewrite decide_False; [done | apply not_elem_of_nil].
Qed.

Lemma series_loc_targets {A B} (f : A → B) (name : Row → A) i c :
  series_loc i (series_map f (map (λ r, (index r, name r)) c)) =
  option_map (λ r, f (name r)) (first_row i c).
Proof.
  induction c as [|r c IH]; [done|]. cbn [map series_map series_loc].
  rewrite first_row_cons.
  destruct (decide (index r = i)) as [<-|Hne].
  - by rewrite bool_decide_eq_true_2.
  - rewrite bool_decide_eq_false_2 by congruence. apply IH.
Qed.

(** Assigning a series built over the combined view: every row of the
    search set finds the value of the first search row under its label. *)
Lemma assign_aligned_targets {A B} (set : B → Row → Row) (f : A → B)
      (name : Row → A) d c :
  assign_aligned set d
    (series_map f (map (λ r, (index r, name r)) (drop_duplicated (concat d c))))
  = map (λ r, set (f (name (default r (first_row (index r) d)))) r) d.
Proof.
  unfold assign_aligned. apply map_ext_in. intros r Hin%list_elem_of_In.
  rewrite series_loc_targets, first_row_drop_duplicated.
  unfold concat. rewrite first_row_app.
  by destruct (first_row_elem r d Hin) as [r0 ->].
Qed.

(** [update] keeps the folder of the store and answers the same for every
    path two levels below it. *)
Lemma update_view st w :
  ∃ st', (SSatDatabase.update (Some st) w).1 = Some st' ∧
         folder st' = folder st ∧
         ∀ a b, exists_ (SSatDatabase.update (Some st) w).2 (folder st // a // b)
                = exists_ w (folder st // a // b).
Proof.
  destruct (decide (df st = [])) as [He|Hne].
  - rewrite update_empty by done. by exists st.
  - rewrite update_nonempty by done. eexists. split; [reflexivity|].
    split; [reflexivity|]. intros a b. cbn [snd].
    apply exists_to_csv_ne, not_eq_sym, join2_ne_join1.
Qed.

End LocalInfoFacts.

Section LocalInfoTheorems.

Implicit Types (s : SSatDownloader.t) (st : Store) (d : list Row)
         (w : gmap (list string) Node).

Lemma check_search_df_nonempty s d :
  _search_df s = Some d → d ≠ [] → check_search_df s = true.
Proof. intros Hs Hd. apply check_search_df_true. by exists d. Qed.

Lemma images_targets_initialized s st d :
  database s = Some st → _search_df s = Some d → d ≠ [] →
  SSatDownloader.images_targets s =
  Some (map (λ r, (index r, images_folder st // (title r +:+ ".zip")))
            (drop_duplicated (concat d (df st)))).
Proof.
  intros Hdb Hs Hd. unfold SSatDownloader.images_targets.
  rewrite (check_search_df_nonempty s d Hs Hd).
  rewrite (combined_df_initialized s st Hdb), Hdb, Hs. reflexivity.
Qed.

Lemma quick_looks_targets_initialized s st d :
  database s = Some st → _search_df s = Some d → d ≠ [] →
  SSatDownloader.quick_looks_targets s =
  Some (map (λ r, (index r, qlooks_folder st // (title r +:+ ".jpeg")))
            (drop_duplicated (concat d (df st)))).
Proof.
  intros Hdb Hs Hd. unfold SSatDownloader.quick_looks_targets.
  rewrite (check_search_df_nonempty s d Hs Hd).
  rewrite (combined_df_initialized s st Hdb), Hdb, Hs. reflexivity.
Qed.

Lemma search_after_update_local_info s w d :
  _search_df s = Some d → d ≠ [] →
  _search_df (update_local_info s w).1 =
  Some (match database s with
        | None => map (λ r, set_qlook false (set_downloaded false r)) d
        | Some st => map (local_flags w st d) d
        end).
Proof.
  intros Hs Hd. unfold update_local_info.
  destruct (database s) as [st|] eqn:Hdb.
  - destruct (update_view st w) as (st' & Hst' & Hf & Hex).
    destruct (SSatDatabase.update (Some st) w) as [db' w'].
    cbn [fst snd] in Hst', Hex. subst db'.
    set (s1 := with_database (Some st') s).
    assert (_search_df s1 = Some d) as Hs1 by done.
    rewrite (check_search_df_nonempty s1 d Hs1 Hd).
    cbn [negb initialized database s1 with_database].
    rewrite (images_targets_initialized s1 st' d eq_refl Hs1 Hd), Hs1.
    rewrite assign_aligned_targets.
    set (h1 := λ r, set_downloaded _ r).
    set (s2 := with_search_df (Some (map h1 d)) s1).
    assert (map h1 d ≠ []) as Hd1 by (by destruct d).
    rewrite (quick_looks_targets_initialized s2 st' (map h1 d)
               eq_refl eq_refl Hd1).
    cbn [_search_df s2 with_search_df fst].
    rewrite assign_aligned_targets, map_map. f_equal.
    apply map_ext_in. intros r _.
    rewrite (first_row_map h1) by done.
    unfold local_flags, h1, qlooks_folder, images_folder. cbn [index].
    rewrite Hf. destruct (first_row (index r) d) as [r0|] eqn:E; cbn;
      rewrite E; cbn; by rewrite !Hex.
  - cbn [SSatDatabase.update].
    set (s1 := with_database None s).
    assert (_search_df s1 = Some d) as Hs1 by done.
    rewrite (check_search_df_nonempty s1 d Hs1 Hd).
    cbn. rewrite Hs. cbn. by rewrite map_map.
Qed.

End LocalInfoTheorems.

Lemma first_row_NoDup (r : Row) (d : DataFrame) :
  NoDup (labels d) → r ∈ d → first_row (index r) d = Some r.
Proof.
  induction d as [|r' d IH]; [by intros _ ?%elem_of_nil|].
  rewrite labels_cons, NoDup_cons, first_row_cons. intros [Hr Hd] Hin.
  apply elem_of_cons in Hin as [->|Hin]; [by rewrite decide_True|].
  rewrite decide_False; [by apply IH|].
  intros He. apply Hr. rewrite He. apply elem_of_labels. by exists r.
Qed.

(** C6, on an initialized store with only the directory [images/A.SAFE]
    on disk: the same product is marked downloaded in the ledger by
    [update], which accepts [.SAFE], and not downloaded in the search set by
    [update_local_info], which looks for the title followed by [.zip] only;
    the row of the search set wins in the combined view, so the product is
    listed for download again. *)
Lemma update_local_info_safe_directory :
  let row := product "u1" "A" "A" in
  let s := mk None (Some (mkStore ["db1"] [row])) (Some [row]) None None
              None None None in
  let w : FS := <[ ["db1"; "images"; "A.SAFE"] := Dir ]>
                  (<[ ["db1"; "download_db.csv"] := Csv [row] ]> sample_layout) in
  let s' := (update_local_info s w).1 in
  map downloaded (ledger (database s')) = [true] ∧
  option_map (map downloaded) (_search_df s') = Some [false] ∧
  option_map labels (SSatDownloader.to_download s') = Some ["u1"].
Proof. by vm_compute. Qed.

(** What [update_local_info] computes on a non-empty search set: it clears
    both flags of every row when the store is uninitialized; when it is
    initialized, a row is marked downloaded exactly when its title followed
    by [.zip] exists under images, and qlook exactly when its title followed
    by [.jpeg] exists under qlooks, the title being that of the first search
    row with the same label (the row itself when labels do not repeat). *)
Theorem update_local_info_flags (s : SSatDownloader.t) (w : FS) (d : DataFrame) :
  _search_df s = Some d →
  d ≠ [] →
  ∃ d', _search_df (update_local_info s w).1 = Some d' ∧
        match database s with
        | None => d' = map (λ r, set_qlook false (set_downloaded false r)) d
        | Some st =>
            d' = map (local_flags w st d) d ∧
            (NoDup (labels d) →
             d' = map (λ r,
                         set_qlook
                           (exists_ w (qlooks_folder st // (title r +:+ ".jpeg")))
                           (set_downloaded
                              (exists_ w (images_folder st // (title r +:+ ".zip")))
                              r)) d)
        end.
Proof.
  intros Hs Hd. eexists. split; [by apply search_after_update_local_info|].
  destruct (database s) as [st|]; [|done]. split; [done|].
  intros Hnd. apply map_ext_in. intros r Hin%list_elem_of_In.
  unfold local_flags. by rewrite (first_row_NoDup r d Hnd Hin).
Qed.

Lemma update_local_info_flags_witness :
  let row := product "u1" "A" "A" in
  let s := mk None (Some (mkStore ["db1"] [])) (Some [row]) None None
              None None None in
  let w : FS := {[ ["db1"; "images"; "A.zip"] := Blob ]} in
  _search_df (update_local_info s w).1 = Some [set_downloaded true row].
Proof.
  intros row s w.
  destruct (update_local_info_flags s w [row] eq_refl) as (d' & -> & _ & H);
    [done|].
  rewrite H; [by vm_compute|].
  apply (bool_decide_unpack _). by vm_compute.
Defined.

(** ** The session controller: query *)

#[global] Instance position_le_trans : Transitive position_le.
Proof.
  intros a b c. unfold position_le.
  destruct (beginposition a), (beginposition b), (beginposition c);
    try done; lia.
Qed.

#[global] Instance position_le_total : Total position_le.
Proof.
  intros a b. unfold position_le.
  destruct (beginposition a), (beginposition b); try (by left); try (by right).
  lia.
Qed.

Section QueryFacts.

Implicit Types (s : SSatDownloader.t) (d : list Row)
         (w : gmap (list string) Node).

Lemma StronglySorted_filter (q : Row → bool) d :
  StronglySorted position_le d → StronglySorted position_le (List.filter q d).
Proof.
  induction 1 as [|r d Hd IH Hr]; [constructor|]. cbn.
  destruct (q r); [|done]. constructor; [done|].
  apply Forall_forall. intros x Hx%list_elem_of_In%filter_In.
  destruct Hx as [Hx _]. rewrite Forall_forall in Hr.
  by apply Hr, list_elem_of_In.
Qed.

Lemma StronglySorted_map_keep (f : Row → Row) d :
  (∀ r, beginposition (f r) = beginposition r) →
  StronglySorted position_le d → StronglySorted position_le (map f d).
Proof.
  intros Hf. induction 1 as [|r d Hd IH Hr]; [constructor|]. cbn.
  constructor; [done|]. apply Forall_forall.
  intros x (x0 & <- & Hx0)%list_elem_of_In%in_map_iff.
  rewrite Forall_forall in Hr. specialize (Hr x0).
  unfold position_le in *. rewrite !Hf. by apply Hr, list_elem_of_In.
Qed.

Lemma Forall2_map_same {A B} (R : A → B → Prop) (f : A → B) (l : list A) :
  (∀ x, R x (f x)) → Forall2 R l (map f l).
Proof. intros H. induction l; cbn; by constructor. Qed.

Lemma search_after_filter_results query s :
  _search_df (filter_results query s) =
  option_map (λ d, match query with Some q => List.filter q d | None => d end)
             (_search_df s).
Proof.
  unfold filter_results, check_search_df.
  destruct (_search_df s) as [[|r d]|] eqn:Hs; cbn; rewrite ?Hs;
    destruct query; cbn; by rewrite ?Hs.
Qed.

(** [update_local_info] rewrites the search set row by row and touches
    the two flags only. *)
Lemma update_local_info_rowwise s w :
  ∃ h : Row → Row,
    (∀ r, same_but_flags r (h r)) ∧
    _search_df (update_local_info s w).1 = option_map (map h) (_search_df s).
Proof.
  destruct (_search_df s) as [d|] eqn:Hs.
  - destruct (decide (d = [])) as [->|Hd].
    + exists id. split; [done|]. unfold update_local_info.
      destruct (SSatDatabase.update (database s) w) as [db w'].
      unfold check_search_df. cbn. by rewrite Hs.
    + rewrite (search_after_update_local_info s w d Hs Hd).
      destruct (database s) as [st|]; eexists; (split; [|reflexivity]);
        done.
  - exists id. split; [done|]. unfold update_local_info.
    destruct (SSatDatabase.update (database s) w) as [db w'].
    unfold check_search_df. cbn. by rewrite Hs.
Qed.

Variable svc : SentinelService.

Lemma query_accepted (post_filter : option (Row → bool)) (search_online : bool)
      (kwargs : list (string * string)) s w :
  _check_api s = true → _is_downloading s = false →
  api_query svc kwargs ≠ [] →
  let handed :=
    with_search_df
      (Some (prepared svc search_online
               (match post_filter with
                | Some q => List.filter q (sort_values (api_query svc kwargs))
                | None => sort_values (api_query svc kwargs)
                end)))
      (with_query_args (Some kwargs) s) in
  query svc post_filter search_online kwargs s w =
  (Done, (update_local_info handed w).1, (update_local_info handed w).2).
Proof.
  intros Ha Hb Hne. cbv zeta.
  unfold query, filter_results, check_search_df, prepared.
  rewrite Ha, Hb. cbn [negb orb].
  destruct (api_query svc kwargs) as [|r0 d0]; [done|].
  cbn [_search_df with_search_df with_query_args].
  destruct (sort_values (r0 :: d0)) as [|r d].
  - cbn [length Nat.eqb negb option_map map _search_df with_search_df].
    destruct post_filter, search_online;
      cbn [option_map map List.filter _search_df with_search_df];
      by destruct (update_local_info _ w).
  - cbn [length Nat.eqb negb]. destruct post_filter as [q|], search_online;
      cbn [_search_df with_search_df with_query_args option_map];
      rewrite !map_map; by destruct (update_local_info _ w).
Qed.

Lemma query_nothing_found (post_filter : option (Row → bool))
      (search_online : bool) (kwargs : list (string * string)) s w :
  _check_api s = true → _is_downloading s = false →
  api_query svc kwargs = [] →
  query svc post_filter search_online kwargs s w =
  (Failed KeyError, with_query_args (Some kwargs) s, w).
Proof.
  intros Ha Hb He. unfold query. by rewrite Ha, Hb, He.
Qed.

Lemma NoDup_labels_list_filter (q : Row → bool) d :
  NoDup (labels d) → NoDup (labels (List.filter q d)).
Proof.
  induction d as [|r d IH]; [done|].
  rewrite labels_cons, NoDup_cons. intros [Hr Hd]. cbn.
  destruct (q r); [|by apply IH].
  rewrite labels_cons. apply NoDup_cons. split; [|by apply IH].
  intros (r' & Hin & Hi)%elem_of_labels. apply Hr, elem_of_labels.
  exists r'. split; [|done].
  by apply list_elem_of_In, filter_In in Hin as [Hin%list_elem_of_In _].
Qed.

Lemma labels_prepared so d : labels (prepared svc so d) = labels d.
Proof. unfold prepared. by apply labels_map_keep. Qed.

(** What a row-wise rewriting that touches the two flags only keeps. *)
Lemma same_but_flags_keeps (h : Row → Row) :
  (∀ r, same_but_flags r (h r)) →
  ∀ r, index (h r) = index r ∧ title (h r) = title r ∧
       identifier (h r) = identifier r ∧
       beginposition (h r) = beginposition r ∧ meta (h r) = meta r ∧
       date (h r) = date r ∧ tile (h r) = tile r ∧
       online (h r) = online r.
Proof.
  intros Hh r. specialize (Hh r). unfold same_but_flags in Hh.
  repeat split;
    [ apply (f_equal index) in Hh | apply (f_equal title) in Hh
    | apply (f_equal identifier) in Hh | apply (f_equal beginposition) in Hh
    | apply (f_equal meta) in Hh | apply (f_equal date) in Hh
    | apply (f_equal tile) in Hh | apply (f_equal online) in Hh ];
    by cbn in Hh.
Qed.

End QueryFacts.

(** C10: a query that is not rejected either finds nothing, and then ends
    with [KeyError] before any search set is stored, or sorts what the
    service returned by [beginposition], ascending, and only then applies the
    post-filter and derives the date and the tile: the search set it leaves
    is, row for row, the filtered sorted frame, and is itself in ascending
    order. *)
Theorem query_sorted (svc : SentinelService) (post_filter : option (Row → bool))
        (search_online : bool) (kwargs : QueryArgs)
        (s : SSatDownloader.t) (w : FS) :
  _check_api s = true →
  _is_downloading s = false →
  (api_query svc kwargs = [] →
   query svc post_filter search_online kwargs s w =
   (Failed KeyError, with_query_args (Some kwargs) s, w)) ∧
  (api_query svc kwargs ≠ [] →
   let sorted := sort_values (api_query svc kwargs) in
   let kept := match post_filter with
               | Some q => List.filter q sorted
               | None => sorted
               end in
   StronglySorted position_le sorted ∧
   sorted ≡ₚ api_query svc kwargs ∧
   ∃ found,
     (query svc post_filter search_online kwargs s w).1.1 = Done ∧
     _search_df (query svc post_filter search_online kwargs s w).1.2
       = Some found ∧
     Forall2 derived kept found ∧
     StronglySorted position_le found).
Proof.
  intros Hapi Hbusy. split; [by apply query_nothing_found|].
  intros Hne sorted kept.
  assert (StronglySorted position_le sorted) as Hsorted
    by apply (StronglySorted_merge_sort _).
  split; [done|]. split; [apply merge_sort_Permutation|].
  rewrite query_accepted by done. cbn [fst snd].
  match goal with
  | |- context [update_local_info ?s0 w] =>
      destruct (update_local_info_rowwise s0 w) as (h & Hh & ->)
  end.
  cbn [_search_df with_search_df option_map].
  fold sorted. fold kept.
  pose proof (same_but_flags_keeps h Hh) as Hkeep.
  assert (StronglySorted position_le kept) as Hkept.
  { unfold kept. destruct post_filter; [by apply StronglySorted_filter|done]. }
  eexists. split; [reflexivity|]. split; [reflexivity|]. split.
  - unfold prepared. rewrite map_map. apply Forall2_map_same. intros r.
    destruct (Hkeep (set_online
                       (if search_online then api_is_online svc (index r)
                        else false)
                       (set_tile (String.substring 39 5 (title r))
                          (set_date (String.substring 11 8 (title r)) r))))
      as (? & ? & ? & ? & ? & ? & ? & ?).
    repeat split; cbn in *; congruence.
  - unfold prepared. repeat apply StronglySorted_map_keep; try done.
    intros r. apply Hkeep.
Qed.

Lemma query_sorted_witness :
  ∃ found,
    _search_df (query sample_service None false [] connected ∅).1.2 = Some found ∧
    map index found = ["u1"; "u2"] ∧
    StronglySorted position_le found.
Proof.
  destruct (query_sorted sample_service None false [] connected ∅
              eq_refl eq_refl) as [_ H].
  destruct H as (_ & _ & found & _ & Hf & _ & Hs); [done|].
  exists found. split; [done|]. split; [|done].
  vm_compute in Hf. by injection Hf as <-.
Defined.

(** ** The session controller: download_all *)

Section DownloadFacts.

Variable svc : SentinelService.

Implicit Types (s : SSatDownloader.t) (st : Store) (d : list Row)
         (i : string) (w : gmap (list string) Node).



Lemma api_update_local_info s w : api (update_local_info s w).1 = api s.
Proof.
  unfold update_local_info.
  destruct (SSatDatabase.update (database s) w) as [db w'].
  repeat case_match; reflexivity.
Qed.



Lemma stored_merge_search_df i s st w :
  database s = Some st →
  i ∈ stored_labels (merge_search_df s w).1 ↔
  i ∈ labels (df st) ∨ ∃ d, _search_df s = Some d ∧ i ∈ labels d.
Proof.
  intros Hdb. unfold merge_search_df, stored_labels.
  destruct (_search_df s) as [d|].
  - rewrite Hdb, add_data_initialized. cbn.
    rewrite labels_app, elem_of_app, elem_of_labels_filter_new. split.
    + intros [?|[? _]]; [by left|]. right. by exists d.
    + intros [?|(d' & [= <-] & Hd)]; [by left|].
      destruct (decide (i ∈ labels (df st))); [by left | by right].
  - cbn [fst]. rewrite Hdb. cbn. split; [by left|].
    by intros [?|(d & ? & _)].
Qed.

Lemma api_merge_search_df s w : api (merge_search_df s w).1 = api s.
Proof.
  unfold merge_search_df. destruct (_search_df s); [|done].
  by destruct (add_data (database s) l w).
Qed.


End DownloadFacts.

(** ** Creating and reopening a store *)

Section LayoutFacts.

Implicit Types (p q : list string) (w : gmap (list string) Node).

Lemma ancestors_self p : p ≠ [] → p ∈ ancestors p.
Proof.
  induction p as [|c p IH]; [done|]. intros _. cbn.
  destruct p as [|c' p]; [by left|]. right.
  apply list_elem_of_In, in_map, list_elem_of_In, IH. done.
Qed.

(** One step of [mkdir] keeps what is there. *)
Lemma mkdir_step_keeps w q q' x :
  w !! q = Some x →
  (if exists_ w q' then w else <[q' := Dir]> w) !! q = Some x.
Proof.
  intros H. unfold exists_. case_bool_decide as He; [done|].
  rewrite lookup_insert_ne; [done|]. intros ->. apply He. by eexists.
Qed.

Lemma mkdir_keeps w p q x : w !! q = Some x → mkdir w p !! q = Some x.
Proof.
  intros H. unfold mkdir. induction (reverse (ancestors p)) as [|q' l IH];
    [done|]. cbn. by apply mkdir_step_keeps.
Qed.

Lemma mkdir_makes w p q : q ∈ ancestors p → exists_ (mkdir w p) q = true.
Proof.
  intros Hq%elem_of_reverse. unfold mkdir.
  induction (reverse (ancestors p)) as [|q' l IH]; [by apply elem_of_nil in Hq|].
  cbn. apply elem_of_cons in Hq as [->|Hq].
  - destruct (exists_ _ q') eqn:He; [done|].
    unfold exists_. rewrite lookup_insert_eq.
    apply bool_decide_eq_true_2. by eexists.
  - specialize (IH Hq). unfold exists_ in IH.
    apply bool_decide_eq_true_1 in IH as [x Hx].
    unfold exists_ at 1. apply bool_decide_eq_true_2. exists x.
    by apply mkdir_step_keeps.
Qed.

Lemma exists_mkdir_keeps w p q :
  exists_ w q = true → exists_ (mkdir w p) q = true.
Proof.
  unfold exists_. intros [x Hx]%bool_decide_eq_true_1.
  apply bool_decide_eq_true_2. exists x. by apply mkdir_keeps.
Qed.

Lemma exists_mkdir_self w p name : exists_ (mkdir w (p // name)) (p // name) = true.
Proof.
  apply mkdir_makes, ancestors_self. unfold join. by destruct p.
Qed.

End LayoutFacts.

(** X1: [create] on a path that does not exist returns [True] with an empty
    ledger; it overwrites nothing that was there, apart from the place of the
    ledger file; and [open] on the same path then returns [True], finds the
    empty ledger and changes nothing. *)
Theorem create_then_open (db db0 : SSatDatabase.t) (w : FS) (base_dir : Path) :
  exists_ w base_dir = false →
  let out := create db w base_dir in
  out.1 = (true, Some (mkStore base_dir [])) ∧
  (∀ q x, q ≠ base_dir // db_csv_name → w !! q = Some x → out.2 !! q = Some x) ∧
  open db0 out.2 base_dir = (true, Some (mkStore base_dir []), out.2).
Proof.
  intros Hnew. cbv zeta. unfold create. rewrite Hnew. cbn [fst snd save_db].
  unfold download_db_path. cbn [folder df].
  set (w3 := mkdir (mkdir (mkdir w base_dir) (base_dir // qlooks_dir))
                   (base_dir // images_dir)).
  split; [done|]. split.
  - intros q x Hq Hx. unfold to_csv. rewrite lookup_insert_ne by done.
    by do 3 apply mkdir_keeps.
  - unfold open. rewrite exists_to_csv_eq.
    rewrite !exists_to_csv_ne
      by (intros ?%join_inj; discriminate).
    unfold w3. rewrite exists_mkdir_self.
    rewrite (exists_mkdir_keeps _ _ _ (exists_mkdir_self _ _ _)).
    by rewrite read_to_csv.
Qed.

Lemma create_then_open_witness :
  let out := create None ∅ ["data"; "db1"] in
  out.1 = (true, Some (mkStore ["data"; "db1"] [])) ∧
  open None out.2 ["data"; "db1"] = (true, Some (mkStore ["data"; "db1"] []), out.2).
Proof.
  destruct (create_then_open None None ∅ ["data"; "db1"]) as (H1 & _ & H2);
    [by vm_compute|]. by split.
Defined.

(** ** More on merging *)

Section MoreMergeFacts.

Implicit Types (d : list Row) (r : Row) (i : string) (st : Store)
         (w : gmap (list string) Node).

Lemma filter_none (P : Row → Prop) `{!∀ r, Decision (P r)} d :
  (∀ r, r ∈ d → ¬ P r) → filter P d = [].
Proof.
  induction d as [|r d IH]; [done|]. intros Hno. rewrite filter_cons.
  rewrite decide_False by (apply Hno; by left).
  apply IH. intros r' Hr'. apply Hno. by right.
Qed.

Lemma first_row_filter_new i (vals : list string) d :
  i ∉ vals →
  first_row i (filter (λ r, index r ∉ vals) d) = first_row i d.
Proof.
  intros Hi. induction d as [|r d IH]; [done|].
  rewrite filter_cons, first_row_cons. case_decide as Hr.
  - rewrite first_row_cons. by rewrite IH.
  - rewrite decide_False; [done|]. intros <-. tauto.
Qed.

Lemma first_row_none i d : first_row i d = None ↔ i ∉ labels d.
Proof.
  induction d as [|r d IH]; [split; [intros _; apply not_elem_of_nil|done]|].
  rewrite first_row_cons, labels_cons, not_elem_of_cons.
  case_decide as Hr; [split; [done | intros [? _]; by subst]|].
  rewrite IH. split; [intros; split; [congruence|done] | by intros [_ ?]].
Qed.

Lemma add_data_unique_step st d w :
  NoDup (labels (df st)) → NoDup (labels d) →
  NoDup (labels (ledger (add_data (Some st) d w).1)).
Proof.
  intros Hst Hd. rewrite add_data_initialized. cbn.
  rewrite labels_app. apply NoDup_app. split; [done|]. split.
  - intros i Hi [_ Hn]%elem_of_labels_filter_new. by apply Hn.
  - by apply NoDup_labels_filter.
Qed.

Lemma add_data_labels_step i st d w :
  i ∈ labels (ledger (add_data (Some st) d w).1) ↔
  i ∈ labels (df st) ∨ i ∈ labels d.
Proof.
  rewrite add_data_initialized. cbn.
  rewrite labels_app, elem_of_app, elem_of_labels_filter_new.
  destruct (decide (i ∈ labels (df st))); tauto.
Qed.

Lemma add_data_all_cons (db : option Store) d (batches : list (list Row)) w :
  add_data_all db (d :: batches) w =
  add_data_all (add_data db d w).1 batches (add_data db d w).2.
Proof. unfold add_data_all. cbn [fold_left fst snd]. by destruct (add_data db d w). Qed.

End MoreMergeFacts.

(** X2: merging the batch that has just been merged changes nothing, in
    memory or on disk. *)
Theorem add_data_again (db : SSatDatabase.t) (d : DataFrame) (w : FS) :
  add_data_twice db d d w = add_data db d w.
Proof.
  unfold add_data_twice. destruct db as [st|]; [|done].
  rewrite add_data_initialized. cbv zeta iota beta.
  rewrite add_data_initialized. cbv zeta. cbn [folder df].
  rewrite (filter_none (λ r, index r ∉ labels (df st ++ _)) d).
  - by rewrite app_nil_r, to_csv_twice.
  - intros r Hr Hn. apply Hn. rewrite labels_app, elem_of_app.
    destruct (decide (index r ∈ labels (df st))); [by left|]. right.
    apply elem_of_labels_filter_new. split; [|done].
    apply elem_of_labels. by exists r.
Qed.

(** X3: after a merge, the row found under a label is the one that was
    stored, and only for a label that was not stored the first incoming row
    with that label; the stored rows stay in front, unchanged. *)
Theorem add_data_lookup (st : Store) (d : DataFrame) (w : FS) (i : string) :
  let merged := ledger (add_data (Some st) d w).1 in
  first_row i merged =
  match first_row i (df st) with
  | Some r => Some r
  | None => first_row i d
  end
  ∧ take (length (df st)) merged = df st.
Proof.
  cbv zeta. rewrite add_data_initialized. cbn [fst ledger df]. split.
  - rewrite first_row_app. destruct (first_row i (df st)) eqn:E; [done|].
    apply first_row_filter_new. by apply first_row_none.
  - by rewrite take_app_length.
Qed.

(** X4: however many batches are merged one after the other, a ledger
    without repeated labels stays so as long as no batch repeats a label
    within itself, and it ends up holding exactly the labels it had and
    those of the batches. *)
Theorem add_data_all_unique (batches : list DataFrame) (st : Store) (w : FS) :
  NoDup (labels (df st)) →
  Forall (λ d, NoDup (labels d)) batches →
  let merged := ledger (add_data_all (Some st) batches w).1 in
  NoDup (labels merged) ∧
  ∀ i, i ∈ labels merged ↔
       i ∈ labels (df st) ∨ ∃ d, d ∈ batches ∧ i ∈ labels d.
Proof.
  revert st w. induction batches as [|d batches IH]; intros st w Hst Hall.
  - cbn. split; [done|]. intros i. split; [by left|].
    intros [?|(d & Hd & _)]; [done | by apply elem_of_nil in Hd].
  - apply Forall_cons in Hall as [Hd Hall]. cbv zeta.
    rewrite add_data_all_cons.
    pose proof (add_data_unique_step st d w Hst Hd) as Hstep.
    pose proof (λ i, add_data_labels_step i st d w) as Hlab.
    destruct (add_data (Some st) d w) as [[st1|] w1] eqn:E;
      [|by rewrite add_data_initialized in E].
    cbn [fst snd ledger] in *.
    destruct (IH st1 w1 Hstep Hall) as [Hnd Hin]. split; [done|].
    intros i. rewrite Hin, Hlab. split.
    + intros [[?|?]|(d' & Hd' & Hi)]; [by left| |].
      * right. exists d. split; [by left | done].
      * right. exists d'. split; [by right | done].
    + intros [?|(d' & [->|Hd']%elem_of_cons & Hi)].
      * left. by left.
      * left. by right.
      * right. by exists d'.
Qed.

Lemma add_data_all_unique_witness :
  let merged := ledger (add_data_all (fresh_store ["db1"])
                          [[product "A" "a" "a"; product "B" "b" "b"];
                           [product "B" "b" "b"; product "C" "c" "c"];
                           [product "A" "a" "a"]] ∅).1 in
  NoDup (labels merged).
Proof.
  apply (add_data_all_unique _ (mkStore ["db1"] []) ∅); [constructor|].
  repeat constructor; apply (bool_decide_unpack _); by vm_compute.
Defined.

(** ** More on reconciling *)

Section MoreUpdateFacts.

Implicit Types (d : list Row) (r : Row) (i : string) (st : Store)
         (seen : list string) (w : gmap (list string) Node).

Lemma length_dedup_from seen d : (length (dedup_from seen d) ≤ length d)%nat.
Proof.
  revert seen. induction d as [|r d IH]; intros seen; [done|].
  rewrite dedup_from_cons. case_bool_decide; cbn; specialize (IH (index r :: seen)); lia.
Qed.

Lemma ledger_after_update st w :
  ledger (update (Some st) w).1 =
  if decide (df st = []) then [] else reconciled_ledger w st.
Proof.
  case_decide as He.
  - rewrite update_empty by done. done.
  - by rewrite update_nonempty.
Qed.

Lemma update_flags_current (db : option Store) w :
  flags_current (update db w).1 (update db w).2.
Proof.
  destruct db as [st|]; [|done].
  destruct (decide (df st = [])) as [He|Hne].
  - rewrite update_empty by done. cbn. rewrite He. by intros r ?%elem_of_nil.
  - rewrite update_nonempty by done. unfold flags_current. cbn [fst snd df].
    intros r Hr.
    apply drop_duplicated_sub, list_elem_of_In, in_map_iff in Hr
      as (r0 & <- & _).
    by rewrite <- (reconciled_to_csv (reconciled_ledger w st) w (folder st) r0).
Qed.

End MoreUpdateFacts.

Lemma update_keeps_first_rows_aux (st : Store) (w : FS) :
  NoDup (labels (ledger (update (Some st) w).1)) ∧
  (length (ledger (update (Some st) w).1) ≤ length (df st))%nat.
Proof.
  rewrite ledger_after_update. case_decide as He.
  - rewrite He. split; [constructor | done].
  - unfold reconciled_ledger. split; [apply NoDup_labels_drop_duplicated|].
    rewrite drop_duplicated_dedup.
    etrans; [apply length_dedup_from|]. by rewrite length_map.
Qed.

(** X5: [update] leaves a ledger without repeated labels that is no longer
    than before, and under every label the row that was first under it, with
    the two flags recomputed and nothing else changed. *)
Theorem update_keeps_first_rows (st : Store) (w : FS) (i : string) :
  let after := ledger (update (Some st) w).1 in
  NoDup (labels after) ∧
  (length after ≤ length (df st))%nat ∧
  first_row i after = option_map (reconciled w (folder st)) (first_row i (df st)).
Proof.
  cbv zeta. destruct (update_keeps_first_rows_aux st w) as [Hnd Hlen].
  split; [done|]. split; [done|].
  rewrite ledger_after_update. case_decide as He.
  - by rewrite He.
  - unfold reconciled_ledger.
    by rewrite first_row_drop_duplicated, first_row_map.
Qed.

(** X6: after [update], a row whose identifier has no dot suffix is marked
    downloaded exactly when the identifier followed by [.zip] or by [.SAFE]
    exists under images, and qlook exactly when the identifier followed by
    [.jpeg] exists under qlooks. *)
Theorem update_flags_plain (st : Store) (w : FS) (r : Row) :
  r ∈ ledger (update (Some st) w).1 →
  suffix (identifier r) = "" →
  downloaded r =
    exists_ w (images_folder st // (identifier r +:+ ".zip"))
    || exists_ w (images_folder st // (identifier r +:+ ".SAFE")) ∧
  qlook r = exists_ w (qlooks_folder st // (identifier r +:+ ".jpeg")).
Proof.
  intros Hr Hplain.
  destruct (decide (df st = [])) as [He|Hne].
  - rewrite update_empty in Hr by done. cbn in Hr. rewrite He in Hr.
    by apply elem_of_nil in Hr.
  - destruct (update_flags st w r Hne Hr) as [Hd Hq].
    by rewrite Hd, Hq, check_image_plain.
Qed.

Lemma update_flags_plain_witness :
  let st := mkStore ["db1"] [product "u1" "A" "A"] in
  let w : FS := {[ ["db1"; "images"; "A.SAFE"] := Dir ]} in
  downloaded (set_downloaded true (product "u1" "A" "A")) =
    exists_ w (images_folder st // ("A" +:+ ".zip"))
    || exists_ w (images_folder st // ("A" +:+ ".SAFE")) ∧
  qlook (set_downloaded true (product "u1" "A" "A")) =
    exists_ w (qlooks_folder st // ("A" +:+ ".jpeg")).
Proof.
  intros st w.
  apply (update_flags_plain st w (set_downloaded true (product "u1" "A" "A")));
    [|by vm_compute].
  assert (ledger (update (Some st) w).1
          = [set_downloaded true (product "u1" "A" "A")]) as ->
    by (by vm_compute).
  by left.
Defined.

(** X8: a successful [open] leaves a ledger without repeated labels whose
    flags say what the filesystem, as [open] returns it, holds. *)
Theorem open_reconciled (db : SSatDatabase.t) (w : FS) (base_dir : Path) :
  (open db w base_dir).1.1 = true →
  NoDup (labels (ledger (open db w base_dir).1.2)) ∧
  flags_current (open db w base_dir).1.2 (open db w base_dir).2.
Proof.
  unfold open. case_match; [|done]. intros _.
  set (st := mkStore base_dir (read_csv w (base_dir // db_csv_name))).
  pose proof (update_keeps_first_rows_aux st w) as [Hnd _].
  pose proof (update_flags_current (Some st) w) as Hf.
  by destruct (update (Some st) w).
Qed.

Lemma open_reconciled_witness :
  let w : FS := {[ ["db1"; "download_db.csv"] :=
                     Csv [product "u1" "A" "A"; product "u1" "A" "A"];
                   ["db1"; "images"] := Dir; ["db1"; "qlooks"] := Dir ]} in
  NoDup (labels (ledger (open None w ["db1"]).1.2)).
Proof.
  intros w. apply (open_reconciled None w ["db1"]). by vm_compute.
Defined.

(** ** More on the session controller *)

Section MoreSessionFacts.

Variable svc : SentinelService.

Implicit Types (s : SSatDownloader.t) (st : Store) (d c : list Row)
         (r : Row) (i : string) (w : gmap (list string) Node).

(** [update_local_info] reconciles the store once and, besides, only
    rewrites the search set. *)
Lemma update_local_info_frame s w :
  ∃ sd, (update_local_info s w).1 =
        with_search_df sd
          (with_database (SSatDatabase.update (database s) w).1 s) ∧
        (update_local_info s w).2 = (SSatDatabase.update (database s) w).2.
Proof.
  unfold update_local_info.
  destruct (SSatDatabase.update (database s) w) as [db w']. cbn [fst snd].
  repeat case_match; eexists; (split; [|reflexivity]);
    try reflexivity;
    by instantiate (1 := _search_df s).
Qed.

Lemma NoDup_ledger_after_update (db : option Store) w :
  NoDup (labels (ledger (SSatDatabase.update db w).1)).
Proof.
  destruct db as [st|]; [|constructor].
  by destruct (update_keeps_first_rows_aux st w).
Qed.

End MoreSessionFacts.

(** X9: once the session is cleared, no download counts as running, the
    search set is gone, and the store and the connection are as they were;
    with a ledger that repeats no label, the to-download set of the session
    is then the one of the store, its rows that are not downloaded. *)
Theorem to_download_after_clear (s : SSatDownloader.t) :
  let s' := Session.clear s in
  _is_downloading s' = false ∧ check_search_df s' = false ∧
  database s' = database s ∧ api s' = api s ∧
  ∀ st, database s = Some st → NoDup (labels (df st)) →
        SSatDownloader.to_download s' = SSatDatabase.to_download (database s).
Proof.
  cbv zeta. repeat split. intros st Hdb Hnd.
  unfold SSatDownloader.to_download, combined_df, check_search_df.
  cbn [Session.clear _search_df database with_search_df with_status
       with_query_args with_result with_monitor with_executor].
  rewrite Hdb. cbn. by rewrite drop_duplicated_id.
Qed.

Lemma to_download_after_clear_witness :
  let stored := [set_downloaded true (product "A" "a" "a"); product "B" "b" "b"] in
  let s := with_search_df (Some [product "A" "a2" "a2"])
             (with_database (Some (mkStore ["db1"] stored)) busy_session) in
  _is_downloading s = true ∧
  SSatDownloader.to_download (Session.clear s) = Some [product "B" "b" "b"].
Proof.
  intros stored s. split; [reflexivity|].
  destruct (to_download_after_clear s) as (_ & _ & _ & _ & H).
  rewrite (H (mkStore ["db1"] stored) eq_refl); [reflexivity|].
  apply (bool_decide_unpack _). by vm_compute.
Defined.

(** X10: the combined view is missing only when there is neither a store
    nor a search row; otherwise it carries each label once, and its labels
    are those of the search rows and of the ledger. *)
Theorem combined_df_view (s : SSatDownloader.t) :
  (combined_df s = None ↔ database s = None ∧ check_search_df s = false) ∧
  ∀ c, combined_df s = Some c →
       NoDup (labels c) ∧
       ∀ i, i ∈ labels c ↔
            i ∈ labels (default [] (_search_df s)) ∨ i ∈ stored_labels s.
Proof.
  unfold combined_df, stored_labels, check_search_df.
  destruct (database s) as [st|], (_search_df s) as [[|r d]|];
    cbn -[drop_duplicated concat labels];
    (split; [split; [done | by intros [? ?]] |]);
    intros c Hc; try discriminate Hc; injection Hc as <-;
    (split; [apply NoDup_labels_drop_duplicated|]);
    intros i; rewrite elem_of_labels_drop_duplicated;
    unfold concat; rewrite ?labels_app, ?elem_of_app;
    change (labels []) with (@nil string); rewrite ?elem_of_nil;
    try tauto.
  change (r :: d ++ df st) with ((r :: d) ++ df st).
  by rewrite labels_app, elem_of_app.
Qed.

(** X11: a query that is not rejected and finds something returns
    normally, records its keyword arguments, reconciles the store exactly
    once and leaves the connection and the worker pool alone; the ledger it
    leaves has the flags that the returned filesystem calls for. *)
Theorem query_effect (svc : SentinelService) (post_filter : option (Row → bool))
        (search_online : bool) (kwargs : QueryArgs)
        (s : SSatDownloader.t) (w : FS) :
  _check_api s = true →
  _is_downloading s = false →
  api_query svc kwargs ≠ [] →
  let out := query svc post_filter search_online kwargs s w in
  out.1.1 = Done ∧
  database out.1.2 = (SSatDatabase.update (database s) w).1 ∧
  out.2 = (SSatDatabase.update (database s) w).2 ∧
  query_args out.1.2 = Some kwargs ∧
  api out.1.2 = api s ∧ executor out.1.2 = executor s ∧
  monitor out.1.2 = monitor s ∧ result out.1.2 = result s ∧
  flags_current (database out.1.2) out.2.
Proof.
  intros Ha Hb Hne. cbv zeta. rewrite query_accepted by done. cbn [fst snd].
  match goal with
  | |- context [update_local_info ?s0 w] =>
      destruct (update_local_info_frame s0 w) as (sd & -> & ->)
  end.
  cbn [database api executor monitor result query_args
       with_search_df with_database with_query_args].
  repeat split. apply update_flags_current.
Qed.

Lemma query_effect_witness :
  let s := with_database
             (Some (mkStore ["db1"] [product "u1" "A" "A"; product "u2" "B" "B"]))
             connected in
  let w : FS := <[ ["db1"; "images"; "A.zip"] := Blob ]> sample_layout in
  let out := query sample_service None false [("date", "x")] s w in
  out.1.1 = Done ∧ query_args out.1.2 = Some [("date", "x")] ∧
  map downloaded (ledger (database out.1.2)) = [true; false].
Proof.
  intros s w.
  destruct (query_effect sample_service None false [("date", "x")] s w
              eq_refl eq_refl) as (He & Hd & _ & Hq & _); [done|].
  split; [exact He|]. split; [exact Hq|]. rewrite Hd. by vm_compute.
Defined.

(** X12: in the search set that a query leaves when it finds something,
    every row is marked online by what the service answers for its label
    when the probe is asked for, and not online otherwise; and the set
    repeats no label when the frame of the service repeats none. *)
Theorem query_online (svc : SentinelService) (post_filter : option (Row → bool))
        (search_online : bool) (kwargs : QueryArgs)
        (s : SSatDownloader.t) (w : FS) :
  _check_api s = true →
  _is_downloading s = false →
  api_query svc kwargs ≠ [] →
  ∃ found,
    _search_df (query svc post_filter search_online kwargs s w).1.2
      = Some found ∧
    Forall (λ r, online r = if search_online then api_is_online svc (index r)
                            else false) found ∧
    (NoDup (labels (api_query svc kwargs)) → NoDup (labels found)).
Proof.
  intros Ha Hb Hne. rewrite query_accepted by done. cbn [fst snd].
  match goal with
  | |- context [update_local_info ?s0 w] =>
      destruct (update_local_info_rowwise s0 w) as (h & Hh & ->)
  end.
  cbn [_search_df with_search_df option_map]. eexists. split; [reflexivity|].
  pose proof (same_but_flags_keeps h Hh) as Hkeep.
  split.
  - apply Forall_forall. intros r'.
    intros (r1 & <- & Hr1)%list_elem_of_In%in_map_iff.
    unfold prepared in Hr1. apply in_map_iff in Hr1 as (r0 & <- & _).
    destruct (Hkeep (set_online
                       (if search_online then api_is_online svc (index r0)
                        else false)
                       (set_tile (String.substring 39 5 (title r0))
                          (set_date (String.substring 11 8 (title r0)) r0))))
      as (-> & _ & _ & _ & _ & _ & _ & ->). done.
  - intros Hnd. rewrite labels_map_keep by apply Hkeep.
    rewrite labels_prepared.
    assert (NoDup (labels (sort_values (api_query svc kwargs)))) as Hs.
    { unfold labels, sort_values.
      by rewrite (Permutation_map index (merge_sort_Permutation _ _)). }
    destruct post_filter; [by apply NoDup_labels_list_filter | done].
Qed.

Lemma query_online_witness :
  ∃ found,
    _search_df (query probing_service None true [] connected ∅).1.2
      = Some found ∧
    map index found = ["u1"; "u2"] ∧
    map online found = [true; false] ∧
    NoDup (labels found).
Proof.
  destruct (query_online probing_service None true [] connected ∅
              eq_refl eq_refl) as (found & Hf & Ho & Hn); [done|].
  exists found. split; [exact Hf|].
  assert (map index found = ["u1"; "u2"]) as Hi.
  { vm_compute in Hf. by injection Hf as <-. }
  split; [exact Hi|]. split.
  - destruct found as [|r1 [|r2 [|]]]; try discriminate Hi.
    injection Hi as H1 H2.
    apply Forall_cons in Ho as [Ho1 Ho2]. apply Forall_cons in Ho2 as [Ho2 _].
    cbn [map]. rewrite Ho1, Ho2, H1, H2. reflexivity.
  - apply Hn. apply (bool_decide_unpack _). by vm_compute.
Defined.

Section MoreDownloadFacts.

Variable svc : SentinelService.

Implicit Types (s : SSatDownloader.t) (st : Store) (d : list Row) (r : Row)
         (w : gmap (list string) Node).

Lemma merge_search_df_keeps s w :
  let m := (merge_search_df s w).1 in
  api m = api s ∧ _search_df m = _search_df s ∧ executor m = executor s ∧
  monitor m = monitor s ∧ result m = result s ∧ status m = status s ∧
  query_args m = query_args s.
Proof.
  cbv zeta. unfold merge_search_df. destruct (_search_df s) as [d|] eqn:E.
  - destruct (add_data (database s) d w). cbn. by rewrite E.
  - cbn. by rewrite E.
Qed.

Lemma merge_search_df_store s st w :
  database s = Some st →
  ∃ st1, database (merge_search_df s w).1 = Some st1 ∧ folder st1 = folder st ∧
         (∀ r, r ∈ df st1 → r ∈ df st ∨ r ∈ default [] (_search_df s)) ∧
         (NoDup (labels (df st)) →
          (∀ d, _search_df s = Some d → NoDup (labels d)) →
          NoDup (labels (df st1))) ∧
         (∀ d, _search_df s = Some d →
               persisted_agrees (Some st1) (merge_search_df s w).2).
Proof.
  intros Hdb. unfold merge_search_df. destruct (_search_df s) as [d|].
  - rewrite Hdb, add_data_initialized. cbn. eexists. split; [reflexivity|].
    split; [reflexivity|]. cbn [df]. split; [|split].
    + intros r [?|[_ ?]%list_elem_of_filter]%elem_of_app; [by left | by right].
    + intros Hst Hd.
      pose proof (add_data_unique_step st d w Hst (Hd d eq_refl)) as H.
      by rewrite add_data_initialized in H.
    + intros _ _. unfold download_db_path, to_csv. cbn.
      apply lookup_insert_eq.
  - exists st. cbn. split; [done|]. split; [done|]. split; [by left|].
    split; [done | by intros d [=]].
Qed.

(** The to-download set read off the combined view. *)
Lemma to_download_initialized s st :
  database s = Some st →
  SSatDownloader.to_download s =
  Some (filter (λ r, downloaded r = false)
          (spec_union (default [] (_search_df s)) (df st))).
Proof.
  intros Hdb. unfold SSatDownloader.to_download. rewrite Hdb.
  cbn [initialized negb]. rewrite (combined_df_spec s st Hdb).
  cbn [option_map]. by rewrite select_inv_column.
Qed.

Lemma spec_union_sub (search stored : list Row) r :
  r ∈ spec_union search stored → r ∈ search ∨ r ∈ stored.
Proof.
  unfold spec_union. intros [H|H]%elem_of_app.
  - left. by apply drop_duplicated_sub.
  - right. apply list_elem_of_filter in H as [_ H].
    by apply drop_duplicated_sub.
Qed.

Lemma database_finish_download s w :
  database (finish_download svc s w).1 = database s.
Proof. unfold finish_download. repeat case_match; reflexivity. Qed.

Lemma NoDup_stored_update_local_info s w :
  NoDup (stored_labels (update_local_info s w).1).
Proof.
  unfold stored_labels.
  destruct (update_local_info_frame s w) as (sd & -> & _).
  cbn [database with_search_df with_database].
  apply NoDup_ledger_after_update.
Qed.

Lemma NoDup_stored_shutdown s w :
  NoDup (stored_labels s) → NoDup (stored_labels (shutdown svc s w).1).
Proof.
  intros Hs. unfold shutdown.
  pose proof (database_finish_download s w) as Hdb.
  destruct (finish_download svc s w) as [s1 w1]. cbn [fst] in Hdb.
  unfold finish_monitor, _monitor_download.
  destruct (monitor s1) as [[[]]|]; cbn [running];
    try (cbn [fst]; unfold stored_labels; by rewrite Hdb).
  pose proof (NoDup_stored_update_local_info s1 w1) as H.
  destruct (update_local_info s1 w1) as [s2 w2]. exact H.
Qed.

End MoreDownloadFacts.

(** X13: when every row of the search set and of the ledger is already
    marked downloaded, [download_all] merges the search set into the store
    and stops there: no connection is needed, the service is not called and
    no pool is started. *)
Theorem download_all_nothing_pending (svc : SentinelService) (max_attempts : nat)
        (background : bool) (s : SSatDownloader.t) (st : Store) (w : FS) :
  database s = Some st →
  (∀ r, r ∈ df st ∨ r ∈ default [] (_search_df s) → downloaded r = true) →
  download_all svc max_attempts background s w =
  (Return, (merge_search_df s w).1, (merge_search_df s w).2).
Proof.
  intros Hdb Hall. unfold download_all. rewrite Hdb. cbn [initialized negb].
  destruct (merge_search_df_store s st w Hdb) as (st1 & Hdb1 & _ & Hsub & _).
  destruct (merge_search_df_keeps s w) as (_ & Hsd & _).
  destruct (merge_search_df s w) as [s1 w1]. cbn [fst snd] in *.
  rewrite (to_download_initialized s1 st1 Hdb1), Hsd.
  rewrite filter_none; [done|].
  intros r [Hr|Hr]%spec_union_sub; rewrite Hall; try done.
  - by right.
  - apply Hsub in Hr. tauto.
Qed.

Lemma download_all_nothing_pending_witness :
  let s := SSatDownloader.mk None (fresh_store ["db1"])
             (Some [set_downloaded true (product "A" "a" "a")])
             None None None None None in
  stored_labels (download_all sample_service 10 true s ∅).1.2 = ["A"].
Proof.
  intros s.
  rewrite (download_all_nothing_pending sample_service 10 true s
             (mkStore ["db1"] []) ∅ eq_refl).
  - by vm_compute.
  - intros r [Hr|Hr]; [by apply elem_of_nil in Hr|].
    cbn in Hr. by apply list_elem_of_singleton in Hr as ->.
Defined.

(** X14: without a connection, and with rows left to download,
    [download_all] ends with the exception of an attribute read on [None];
    by then the search set has been merged into the store and written to
    the ledger file. *)
Theorem download_all_no_connection (svc : SentinelService) (max_attempts : nat)
        (background : bool) (s : SSatDownloader.t) (st : Store)
        (pending : DataFrame) (w : FS) :
  database s = Some st →
  api s = None →
  SSatDownloader.to_download (merge_search_df s w).1 = Some pending →
  pending ≠ [] →
  download_all svc max_attempts background s w =
  (Raise, (merge_search_df s w).1, (merge_search_df s w).2) ∧
  (∀ d i, _search_df s = Some d → i ∈ labels d →
          i ∈ stored_labels (merge_search_df s w).1) ∧
  (∀ d, _search_df s = Some d →
        persisted_agrees (database (merge_search_df s w).1)
                         (merge_search_df s w).2).
Proof.
  intros Hdb Ha Hp Hne. split; [|split].
  - unfold download_all. rewrite Hdb. cbn [initialized negb].
    destruct (merge_search_df_keeps s w) as (Hapi & _).
    destruct (merge_search_df s w) as [s1 w1]. cbn [fst snd] in *.
    rewrite Hp. destruct pending; [done|]. cbn [length Nat.eqb].
    by rewrite Hapi, Ha.
  - intros d i Hs Hi. apply (stored_merge_search_df i s st w Hdb).
    right. by exists d.
  - intros d Hs.
    destruct (merge_search_df_store s st w Hdb) as (st1 & -> & _ & _ & _ & H).
    by apply (H d).
Qed.

Lemma download_all_no_connection_witness :
  let s := SSatDownloader.mk None (fresh_store ["db1"])
             (Some [product "A" "a" "a"]) None None None None None in
  (download_all sample_service 10 false s ∅).1.1 = Raise.
Proof.
  intros s.
  assert (SSatDownloader.to_download (merge_search_df s ∅).1
          = Some [product "A" "a" "a"]) as Hp by (by vm_compute).
  destruct (download_all_no_connection sample_service 10 false s
              (mkStore ["db1"] []) [product "A" "a" "a"] ∅ eq_refl eq_refl Hp)
    as (-> & _); done.
Defined.

(** X15: a synchronous [download_all] with rows left to download asks the
    service for exactly the pending labels, into the images folder and with
    the given retry budget; it records what the service returns, reconciles
    the store against the filesystem that the download left, switches the
    logger of the connection back on and leaves the worker pool as it was. *)
Theorem download_all_foreground (svc : SentinelService) (max_attempts : nat)
        (s : SSatDownloader.t) (st : Store) (a : SentinelAPI)
        (pending : DataFrame) (w : FS) :
  database s = Some st →
  api s = Some a →
  SSatDownloader.to_download (merge_search_df s w).1 = Some pending →
  pending ≠ [] →
  let m := merge_search_df s w in
  let fetched := api_download_all svc (labels pending) (images_folder st)
                   max_attempts m.2 in
  let out := download_all svc max_attempts false s w in
  out.1.1 = Return ∧
  status out.1.2 = Some fetched.1 ∧
  database out.1.2 = (SSatDatabase.update (database m.1) fetched.2).1 ∧
  out.2 = (SSatDatabase.update (database m.1) fetched.2).2 ∧
  flags_current (database out.1.2) out.2 ∧
  api out.1.2 = Some (mkAPI false (show_progressbars a)) ∧
  executor out.1.2 = executor s ∧ monitor out.1.2 = monitor s ∧
  result out.1.2 = result s.
Proof.
  intros Hdb Ha Hp Hne. cbv zeta. unfold download_all.
  rewrite Hdb. cbn [initialized negb].
  destruct (merge_search_df_store s st w Hdb) as (st1 & Hdb1 & Hf & _).
  destruct (merge_search_df_keeps s w) as (Hapi & _ & He & Hm & Hr & _).
  destruct (merge_search_df s w) as [s1 w1]. cbn [fst snd] in *.
  rewrite Hp. destruct pending as [|r pending]; [done|]. cbn [length Nat.eqb].
  rewrite Hapi, Ha.
  change (SSatDownloader.to_download (set_logger_disabled true s1))
    with (SSatDownloader.to_download s1).
  change (database (set_logger_disabled true s1)) with (database s1).
  rewrite Hp, Hdb1. cbn [default option_map].
  unfold images_folder. rewrite Hf.
  destruct (api_download_all svc _ _ max_attempts w1) as [fetched w2].
  match goal with
  | |- context [update_local_info ?s0 w2] =>
      destruct (update_local_info_frame s0 w2) as (sd & Hs3 & Hw3);
      destruct (update_local_info s0 w2) as [s3 w3]
  end.
  cbn [fst snd] in *. subst s3 w3.
  cbn [database api executor monitor result status set_logger_disabled
       with_api with_search_df with_database with_status option_map].
  rewrite Hapi, Ha, He, Hm, Hr, Hdb1. cbn [option_map logger_disabled show_progressbars].
  repeat split. apply update_flags_current.
Qed.

Lemma download_all_foreground_witness :
  let s := SSatDownloader.mk (Some (mkAPI false true)) (fresh_store ["db1"])
             (Some [product "A" "a" "a"]) None None None None None in
  let out := download_all sample_service 10 false s ∅ in
  out.1.1 = Return ∧ executor out.1.2 = None ∧
  api out.1.2 = Some (mkAPI false true).
Proof.
  intros s.
  assert (SSatDownloader.to_download (merge_search_df s ∅).1
          = Some [product "A" "a" "a"]) as Hp by (by vm_compute).
  destruct (download_all_foreground sample_service 10 s (mkStore ["db1"] [])
              (mkAPI false true) [product "A" "a" "a"] ∅ eq_refl eq_refl Hp)
    as (H1 & _ & _ & _ & _ & H2 & H3 & _); [done|].
  by split; [|split].
Defined.

(** X16: a background [download_all] on a session without a pool, with
    rows left to download, returns without calling the service: the
    filesystem is as the merge left it, the new two-worker pool holds the job
    for exactly the pending labels and the images folder, both futures report
    running, the logger and the progress bars of the connection are off, and
    the session now counts as downloading. *)
Theorem download_all_background (svc : SentinelService) (max_attempts : nat)
        (s : SSatDownloader.t) (st : Store) (a : SentinelAPI)
        (pending : DataFrame) (w : FS) :
  database s = Some st →
  api s = Some a →
  executor s = None →
  SSatDownloader.to_download (merge_search_df s w).1 = Some pending →
  pending ≠ [] →
  let m := merge_search_df s w in
  let out := download_all svc max_attempts true s w in
  out.1.1 = Return ∧ out.2 = m.2 ∧
  database out.1.2 = database m.1 ∧ _search_df out.1.2 = _search_df s ∧
  executor out.1.2 =
    Some (mkExecutor 2 (labels pending) (images_folder st) max_attempts) ∧
  result out.1.2 = Some (mkFuture true) ∧
  monitor out.1.2 = Some (mkFuture true) ∧
  api out.1.2 = Some (mkAPI true false) ∧
  _is_downloading out.1.2 = true.
Proof.
  intros Hdb Ha Hex Hp Hne. cbv zeta. unfold download_all.
  rewrite Hdb. cbn [initialized negb].
  destruct (merge_search_df_store s st w Hdb) as (st1 & Hdb1 & Hf & _).
  destruct (merge_search_df_keeps s w) as (Hapi & Hsd & He & _).
  destruct (merge_search_df s w) as [s1 w1]. cbn [fst snd] in *.
  rewrite Hp. destruct pending as [|r pending]; [done|]. cbn [length Nat.eqb].
  rewrite Hapi, Ha.
  change (executor (set_show_progressbars false (set_logger_disabled true s1)))
    with (executor s1).
  rewrite He, Hex.
  change (SSatDownloader.to_download
            (set_show_progressbars false (set_logger_disabled true s1)))
    with (SSatDownloader.to_download s1).
  change (database (set_show_progressbars false (set_logger_disabled true s1)))
    with (database s1).
  rewrite Hp, Hdb1. cbn [default option_map].
  unfold images_folder. rewrite Hf.
  cbn [fst snd database _search_df executor result monitor api
       _is_downloading running
       with_executor with_result with_monitor with_api
       set_logger_disabled set_show_progressbars].
  rewrite Hapi, Ha, Hdb1, Hsd. by cbn.
Qed.

Lemma download_all_background_witness :
  let s := SSatDownloader.mk (Some (mkAPI false true)) (fresh_store ["db1"])
             (Some [product "A" "a" "a"]) None None None None None in
  let out := download_all sample_service 10 true s ∅ in
  executor out.1.2 = Some (mkExecutor 2 ["A"] ["db1"; "images"] 10) ∧
  _is_downloading out.1.2 = true.
Proof.
  intros s.
  assert (SSatDownloader.to_download (merge_search_df s ∅).1
          = Some [product "A" "a" "a"]) as Hp by (by vm_compute).
  destruct (download_all_background sample_service 10 s (mkStore ["db1"] [])
              (mkAPI false true) [product "A" "a" "a"] ∅
              eq_refl eq_refl eq_refl Hp)
    as (_ & _ & _ & _ & H1 & _ & _ & _ & H2); [done|].
  by split.
Defined.

(** X17: [download_all] keeps the ledger free of repeated labels, whichever
    way it ends, as long as the ledger had none and the search set repeats
    none.  A synchronous download that has rows to fetch ends with a ledger
    free of repeated labels even when the search set repeats one: the
    reconcile at its end drops the repetition. *)
Theorem download_all_keeps_unique (svc : SentinelService) (max_attempts : nat)
        (background : bool) (s : SSatDownloader.t) (w : FS) :
  (NoDup (stored_labels s) →
   (∀ d, _search_df s = Some d → NoDup (labels d)) →
   NoDup (stored_labels (download_all svc max_attempts background s w).1.2)) ∧
  (background = false →
   initialized (database s) = true → api s ≠ None →
   (∃ pending, SSatDownloader.to_download (merge_search_df s w).1 = Some pending
               ∧ pending ≠ []) →
   NoDup (stored_labels (download_all svc max_attempts background s w).1.2)).
Proof.
  split.
  - intros Hs Hd. unfold download_all.
    destruct (database s) as [st|] eqn:Hdb; [|done]. cbn [initialized negb].
    destruct (merge_search_df_store s st w Hdb)
      as (st1 & Hdb1 & _ & _ & Hnd & _).
    assert (NoDup (stored_labels (merge_search_df s w).1)) as Hm.
    { unfold stored_labels. rewrite Hdb1. apply Hnd; [|done].
      unfold stored_labels in Hs. by rewrite Hdb in Hs. }
    clear Hdb1 Hnd. destruct (merge_search_df s w) as [s1 w1]. cbn [fst] in Hm.
    destruct (SSatDownloader.to_download s1) as [pending|]; [|done].
    destruct (length pending =? 0)%nat; [done|].
    destruct (api s1); [|done]. destruct background.
    + destruct (executor _).
      * pose proof (NoDup_stored_shutdown svc
                      (set_show_progressbars false (set_logger_disabled true s1))
                      w1 Hm) as H.
        destruct (shutdown svc _ w1) as [s2 w2]. exact H.
      * exact Hm.
    + destruct (api_download_all svc _ _ max_attempts w1) as [fetched w2].
      pose proof (NoDup_stored_update_local_info
                    (with_status (Some fetched) (set_logger_disabled true s1)) w2)
        as H.
      destruct (update_local_info _ w2) as [s3 w3]. exact H.
  - intros -> Hinit Hapi (pending & Hp & Hne). unfold download_all.
    rewrite Hinit. cbn [negb].
    destruct (merge_search_df_keeps s w) as (Ha & _).
    destruct (merge_search_df s w) as [s1 w1]. cbn [fst] in Hp, Ha.
    rewrite Hp. destruct pending; [done|]. cbn [length Nat.eqb].
    rewrite Ha. destruct (api s); [|done].
    destruct (api_download_all svc _ _ max_attempts w1) as [fetched w2].
    pose proof (NoDup_stored_update_local_info
                  (with_status (Some fetched) (set_logger_disabled true s1)) w2)
      as H.
    destruct (update_local_info _ w2) as [s3 w3]. exact H.
Qed.

Lemma download_all_keeps_unique_witness :
  let stored := [product "A" "a" "a"; product "B" "b" "b"] in
  let s1 := with_search_df (Some [product "B" "b" "b"; product "C" "c" "c"])
              (with_database (Some (mkStore ["db1"] stored)) busy_session) in
  let s2 := with_search_df (Some [product "D" "d" "d"; product "D" "d2" "d2"])
              (with_database (Some (mkStore ["db1"] stored)) connected) in
  let out1 := download_all sample_service 10 true s1 sample_layout in
  let out2 := download_all sample_service 10 false s2 sample_layout in
  (NoDup (stored_labels out1.1.2) ∧ stored_labels out1.1.2 = ["A"; "B"; "C"]) ∧
  (NoDup (stored_labels out2.1.2) ∧ stored_labels out2.1.2 = ["A"; "B"; "D"]).
Proof.
  intros stored s1 s2. split; (split; [|by vm_compute]).
  - apply (proj1 (download_all_keeps_unique sample_service 10 true s1
                    sample_layout)).
    + apply (bool_decide_unpack _). by vm_compute.
    + intros d [= <-]. apply (bool_decide_unpack _). by vm_compute.
  - apply (proj2 (download_all_keeps_unique sample_service 10 false s2
                    sample_layout)); try done.
    eexists. split; [by vm_compute|done].
Defined.

Section StatusFacts.

Implicit Types (s : SSatDownloader.t) (st : Store) (d c : list Row) (r : Row)
         (i : string) (w : gmap (list string) Node).

Lemma series_loc_plain {A} (name : Row → A) i c :
  series_loc i (map (λ r, (index r, name r)) c) = option_map name (first_row i c).
Proof.
  induction c as [|r c IH]; [done|]. cbn [map series_loc].
  rewrite first_row_cons.
  destruct (decide (index r = i)) as [<-|Hne].
  - by rewrite bool_decide_eq_true_2.
  - rewrite bool_decide_eq_false_2 by congruence. apply IH.
Qed.

Lemma length_filter_id_map (g : Row → bool) d :
  length (List.filter id (map g d)) = length (filter (λ r, g r = true) d).
Proof.
  induction d as [|r d IH]; [done|]. cbn [map List.filter].
  rewrite filter_cons. unfold id at 1. destruct (g r) eqn:E.
  - rewrite decide_True by done. cbn. by rewrite IH.
  - rewrite decide_False by done. apply IH.
Qed.

End StatusFacts.

(** X18: [download_status] reports nothing while no download runs.  While
    one runs on an initialized store, it counts, among the rows left to
    download, those whose title followed by [.zip] exists under images; but
    with an empty search set it fails on subscripting [None], and with no
    store on reading an attribute of [None]. *)
Theorem download_status_report (s : SSatDownloader.t) (w : FS) :
  (_is_downloading s = false → Session.download_status s w = NoDownload) ∧
  (_is_downloading s = true → database s = None →
   Session.download_status s w = Fails AttributeError) ∧
  (_is_downloading s = true → check_search_df s = false →
   ∀ st, database s = Some st →
         Session.download_status s w = Fails TypeError) ∧
  (_is_downloading s = true → check_search_df s = true →
   ∀ st pending,
     database s = Some st → SSatDownloader.to_download s = Some pending →
     Session.download_status s w =
     Completed
       (length (filter (λ r, exists_ w (images_folder st // (title r +:+ ".zip"))
                             = true) pending))
       (length pending)).
Proof.
  unfold Session.download_status. repeat split.
  - by intros ->.
  - intros -> Hdb. unfold SSatDownloader.to_download. rewrite Hdb. cbn.
    by destruct (SSatDownloader.images_targets s).
  - intros -> Hc st Hdb.
    unfold SSatDownloader.images_targets, SSatDownloader.to_download.
    rewrite Hc, Hdb, (combined_df_initialized s st Hdb). done.
  - intros -> Hc st pending Hdb Hp.
    apply check_search_df_true in Hc as (d & Hs & Hd).
    rewrite (images_targets_initialized s st d Hdb Hs Hd), Hp.
    unfold SSatDownloader.to_download in Hp. rewrite Hdb in Hp.
    rewrite (combined_df_initialized s st Hdb), Hs in Hp.
    cbn [initialized negb option_map default] in Hp.
    injection Hp as <-. rewrite select_inv_column.
    set (c := drop_duplicated (concat d (df st))).
    set (pending := filter (λ r, downloaded r = false) c).
    unfold Session.series_take.
    assert (map (λ v : option (list string),
                   match v with Some p => exists_ w p | None => false end)
              (map (λ i, series_loc i
                           (map (λ r, (index r,
                                       images_folder st // (title r +:+ ".zip")))
                                c))
                   (labels pending))
            = map (λ r, exists_ w (images_folder st // (title r +:+ ".zip")))
                  pending) as ->.
    { unfold labels. rewrite !map_map. apply map_ext_in.
      intros r Hr%list_elem_of_In. rewrite series_loc_plain.
      apply list_elem_of_filter in Hr as [_ Hr].
      by rewrite (first_row_NoDup r c (NoDup_labels_drop_duplicated _) Hr). }
    by rewrite length_filter_id_map, length_map.
Qed.

Lemma download_status_report_witness :
  let s := SSatDownloader.mk (Some (mkAPI true false))
             (Some (mkStore ["db1"] [product "B" "b" "b"])) None None None
             (Some (mkExecutor 2 ["B"] ["db1"; "images"] 10))
             (Some (mkFuture true)) (Some (mkFuture true)) in
  Session.download_status s ∅ = Fails TypeError.
Proof.
  intros s.
  destruct (download_status_report s ∅) as (_ & _ & H & _).
  by apply (H eq_refl eq_refl (mkStore ["db1"] [product "B" "b" "b"])).
Defined.

(** X19: [update] does nothing on an empty search set and reconciles when
    asked to stay local.  Asked to query again, it does so only with a
    connection and no download in flight, and then without any post-filter:
    when the service finds something, the search set it leaves carries every
    label that the service returns for the keyword arguments of the last
    query; when the service finds nothing, it ends with [KeyError] and the
    search set stays. *)
Theorem update_refresh (svc : SentinelService) (local : bool)
        (s : SSatDownloader.t) (w : FS) :
  (check_search_df s = false → Session.update svc local s w = (Done, s, w)) ∧
  (check_search_df s = true →
   Session.update svc true s w =
   (Done, (update_local_info s w).1, (update_local_info s w).2)) ∧
  (check_search_df s = true → _check_api s && negb (_is_downloading s) = false →
   Session.update svc false s w = (Done, s, w)) ∧
  (check_search_df s = true → _check_api s = true → _is_downloading s = false →
   ∀ kwargs, query_args s = Some kwargs →
     (api_query svc kwargs = [] →
      Session.update svc false s w
      = (Failed KeyError, with_query_args (Some kwargs) s, w)) ∧
     (api_query svc kwargs ≠ [] →
      ∃ found,
        (Session.update svc false s w).1.1 = Done ∧
        _search_df (Session.update svc false s w).1.2 = Some found ∧
        labels found ≡ₚ labels (api_query svc kwargs))).
Proof.
  unfold Session.update. split; [|split; [|split]].
  - by intros ->.
  - intros ->. cbn. by destruct (update_local_info s w).
  - intros -> ->. done.
  - intros -> Ha Hb kwargs ->. rewrite Ha, Hb. cbn [negb andb]. split.
    + intros He. by apply query_nothing_found.
    + intros Hne. rewrite query_accepted by done. cbn [fst snd].
      match goal with
      | |- context [update_local_info ?s0 w] =>
          destruct (update_local_info_rowwise s0 w) as (h & Hh & ->)
      end.
      cbn [_search_df with_search_df option_map].
      eexists. split; [reflexivity|]. split; [reflexivity|].
      rewrite labels_map_keep, labels_prepared.
      * unfold labels, sort_values.
        apply Permutation_map, merge_sort_Permutation.
      * intros r. by destruct (same_but_flags_keeps h Hh r).
Qed.

Lemma update_refresh_witness :
  let s := with_search_df (Some [product "u1" "A" "A"])
             (with_query_args (Some []) connected) in
  (∃ found,
     _search_df (Session.update sample_service false s ∅).1.2 = Some found ∧
     labels found ≡ₚ ["u2"; "u1"]) ∧
  Session.update silent_service false s ∅ = (Failed KeyError, s, ∅).
Proof.
  intros s. split.
  - destruct (update_refresh sample_service false s ∅) as (_ & _ & _ & H).
    destruct (H eq_refl eq_refl eq_refl [] eq_refl) as [_ H2].
    destruct H2 as (found & _ & Hf & Hp); [done|]. by exists found.
  - destruct (update_refresh silent_service false s ∅) as (_ & _ & _ & H).
    destruct (H eq_refl eq_refl eq_refl [] eq_refl) as [H1 _].
    by apply H1.
Defined.

(** X20: a [create_database] on a path that exists, like an [open_database]
    on a folder that lacks the ledger file or one of the two directories,
    leaves the session without a store, whatever store it had, and leaves
    the filesystem, the search set and the connection as they were; a
    [download_all] that follows is a no-op. *)
Theorem failed_database_call (svc : SentinelService) (s : SSatDownloader.t)
        (w : FS) (folder : Path) :
  (exists_ w folder = true →
   let out := Session.create_database folder s w in
   database out.1 = None ∧ out.2 = w ∧
   _search_df out.1 = _search_df s ∧ api out.1 = api s ∧
   ∀ n bg, download_all svc n bg out.1 out.2 = (Return, out.1, out.2)) ∧
  (exists_ w (folder // db_csv_name) && exists_ w (folder // images_dir)
   && exists_ w (folder // qlooks_dir) = false →
   let out := Session.open_database folder s w in
   database out.1 = None ∧ out.2 = w ∧
   _search_df out.1 = _search_df s ∧ api out.1 = api s ∧
   ∀ n bg, download_all svc n bg out.1 out.2 = (Return, out.1, out.2)).
Proof.
  split; intros H; cbv zeta.
  - unfold Session.create_database, create. rewrite H. cbn. by repeat split.
  - unfold Session.open_database, open. rewrite H. cbn. by repeat split.
Qed.

Lemma failed_database_call_witness :
  let s := with_database (Some (mkStore ["db1"] [product "A" "a" "a"])) connected in
  let w : FS := {[ ["db2"] := Dir ]} in
  database (Session.create_database ["db2"] s w).1 = None.
Proof.
  intros s w.
  destruct (failed_database_call sample_service s w ["db2"]) as [H _].
  by apply H.
Defined.

Lemma combined_df_view_witness :
  ∃ c, combined_df busy_session = Some c ∧ NoDup (labels c).
Proof.
  destruct (combined_df busy_session) as [c|] eqn:E; [|by vm_compute in E].
  exists c. split; [done|].
  by apply (proj2 (combined_df_view busy_session) c E).
Defined.

(** ** download_all while a download is in flight *)

Section GuardFacts.

Variable svc : SentinelService.

Implicit Types (s : SSatDownloader.t) (st : Store) (d : list Row) (r : Row)
         (i : string) (w : gmap (list string) Node) (f : list string).







End GuardFacts.



